(** * The ORCID OAuth2 provider ([tools/auth/orcid.go])

    A shallow embedding of [NewORCIDProvider] and [ORCID.FetchAuthUser],
    together with the parts of the Go libraries the method goes through
    ([oauth2.Token.Extra], [http.NewRequestWithContext], [http.Header.Add],
    [json.Unmarshal] into a [map[string]any] and into the anonymous
    [extracted] struct), and the properties of the token-to-identity
    resolution stated in the specification.

    Go strings are byte strings: they are modelled by [string], whose
    characters are the 256 values of [ascii].  The provider instance behind
    the pointer receiver and the requests handed to the shared fetch helper
    live in an explicit [World] that the method threads through. *)

From Stdlib Require Import ZArith Ascii String List Floats.SpecFloat.
From stdpp Require Import base option gmap strings list fin_maps.

Set Warnings "-register-all".

(** ** Go values *)

(** The Go [error] values that can come out of the method.  Only the data
    the method or its callers can observe is kept; the byte offsets and
    reflected types that [encoding/json] adds to its errors are left out. *)
Inductive error : Type :=
  | errorString (s : string)               (* errors.New, fmt.Errorf without %w *)
  | url_Error (Op URL Err : string)        (* url.Error *)
  | json_SyntaxError (msg : string)        (* json.SyntaxError *)
  | json_UnmarshalTypeError (Value : string) (* json.UnmarshalTypeError *)
  | transportError (e : string).           (* whatever the fetch helper reports *)

(** A Go result pair [(v, err)] of which the caller reads [v] only when
    [err == nil]. *)
Inductive Result (A : Type) : Type :=
  | Ok (a : A)
  | Err (e : error).
Arguments Ok {A} a.
Arguments Err {A} e.

#[global] Instance Result_ret : MRet Result := fun A a => Ok a.
#[global] Instance Result_bind : MBind Result := fun A B f r =>
  match r with
  | Ok a => f a
  | Err e => Err e
  end.

(** A Go [float64]. *)
Definition float64 : Type := spec_float.

(** The dynamic values [encoding/json] stores in an [any]: [nil], [bool],
    [float64], [string], [[]any] and [map[string]any].  A nil map and an
    empty map are not told apart. *)
Inductive any : Type :=
  | any_nil
  | any_bool (b : bool)
  | any_float64 (f : float64)
  | any_string (s : string)
  | any_slice (l : list any)
  | any_map (m : gmap string any).

(** [x.(string)] in its two-result form. *)
Definition assert_string (x : any) : string * bool :=
  match x with
  | any_string s => (s, true)
  | _ => ("", false)
  end.

(** [time.Time], counted in nanoseconds from the zero time. *)
Definition time_Time : Type := Z.

(** [types.DateTime] wraps a [time.Time]; its zero value wraps the zero
    time. *)
Record DateTime : Type := { DateTime_t : time_Time }.
Definition DateTime_zero : DateTime := {| DateTime_t := 0%Z |}.

(** [context.Context]; a nil interface value is [None] where it is used. *)
Inductive Context : Type :=
  | context_Background
  | context_WithDeadline (parent : Context) (deadline : time_Time).

(** ** [golang.org/x/oauth2] *)

Module oauth2.

(** [oauth2.Token]: the fields the provider reads, and the bag of extra
    fields of the token response ([raw], a [map[string]any] for the JSON
    token responses ORCID sends). *)
Record Token : Type := {
  AccessToken : string;
  RefreshToken : string;
  Expiry : time_Time;
  raw : gmap string any
}.

(** [Token.Extra]: indexing the map gives the zero value [nil] for a
    key it does not hold. *)
Definition Extra (t : Token) (key : string) : any :=
  default any_nil (raw t !! key).

End oauth2.

(** ** [net/http], [net/url] *)

(** The token characters of RFC 7230, which are both the valid bytes of a
    request method and of a header field name. *)
Definition isTokenByte (c : ascii) : bool :=
  let n := nat_of_ascii c in
  ((48 <=? n) && (n <=? 57)) || ((65 <=? n) && (n <=? 90)) ||
  ((97 <=? n) && (n <=? 122)) ||
  existsb (Nat.eqb n) [33; 35; 36; 37; 38; 39; 42; 43; 45; 46; 94; 95; 96; 124; 126].

Fixpoint forallb_string (f : ascii -> bool) (s : string) : bool :=
  match s with
  | EmptyString => true
  | String c r => f c && forallb_string f r
  end.

Definition validMethod (method : string) : bool :=
  negb (String.eqb method "") && forallb_string isTokenByte method.

(** [url.stringContainsCTLByte]: a byte below the space or DEL. *)
Definition isCTLByte (c : ascii) : bool :=
  let n := nat_of_ascii c in (n <? 32) || (n =? 127).

Definition stringContainsCTLByte (s : string) : bool :=
  negb (forallb_string (fun c => negb (isCTLByte c)) s).

(** The part of a string before its first number sign, the whole string
    when it has none. *)
Fixpoint before_hash (s : string) : string :=
  match s with
  | EmptyString => EmptyString
  | String c r => if Ascii.eqb c "#"%char then EmptyString else String c (before_hash r)
  end.

(** A parsed [url.URL]: the result of parsing [rawURL].  Its components are a
    function of that string and the provider never looks at them. *)
Record URL : Type := { rawURL : string }.

Definition upper (c : ascii) : ascii :=
  let n := nat_of_ascii c in
  if (97 <=? n) && (n <=? 122) then ascii_of_nat (n - 32) else c.

Definition lower (c : ascii) : ascii :=
  let n := nat_of_ascii c in
  if (65 <=? n) && (n <=? 90) then ascii_of_nat (n + 32) else c.

(** [textproto.CanonicalMIMEHeaderKey]: the first letter and every letter
    after a hyphen in upper case, the others in lower case; a key with a
    byte that is not a token character is returned as it is. *)
Fixpoint canonicalize (up : bool) (s : string) : string :=
  match s with
  | EmptyString => EmptyString
  | String c r =>
      String (if up then upper c else lower c)
             (canonicalize (Ascii.eqb c "-"%char) r)
  end.

Definition CanonicalMIMEHeaderKey (s : string) : string :=
  if forallb_string isTokenByte s then canonicalize true s else s.

(** [http.Header] is a [map[string][]string]. *)
Definition Header_Add (h : gmap string (list string)) (key value : string)
  : gmap string (list string) :=
  let k := CanonicalMIMEHeaderKey key in
  <[k := default [] (h !! k) ++ [value]]> h.

Definition Header_Get (h : gmap string (list string)) (key : string) : string :=
  match h !! CanonicalMIMEHeaderKey key with
  | Some (v :: _) => v
  | _ => ""
  end.

(** [http.Request], as far as the provider fills it. *)
Record Request : Type := {
  Request_ctx : Context;
  Method : string;
  Request_URL : URL;
  Header : gmap string (list string)
}.

Definition Request_AddHeader (req : Request) (key value : string) : Request :=
  {| Request_ctx := Request_ctx req;
     Method := Method req;
     Request_URL := Request_URL req;
     Header := Header_Add (Header req) key value |}.

(** ** JSON documents *)

(** A syntactically valid JSON text, as [encoding/json]'s scanner walks it:
    object members in document order, repeated keys kept, strings
    unquoted, number literals as written. *)
Inductive json : Type :=
  | JNull
  | JBool (b : bool)
  | JNumber (lit : string)
  | JString (s : string)
  | JArray (elems : list json)
  | JObject (members : list (string * json)).

(** The description of a JSON value in a [json.UnmarshalTypeError]. *)
Definition json_kind (v : json) : string :=
  match v with
  | JNull => "null"
  | JBool _ => "bool"
  | JNumber _ => "number"
  | JString _ => "string"
  | JArray _ => "array"
  | JObject _ => "object"
  end.

(** A Go slice: the elements below its length, and what its backing array
    still holds above it ([spare]), which a later decode into the slice
    starts from. *)
Record slice (A : Type) : Type := { items : list A; spare : list A }.
Arguments items {A} s.
Arguments spare {A} s.
Definition nil_slice {A} : slice A := {| items := []; spare := [] |}.

(** ** The [auth] package around the provider *)

(** Modelled from the spec: the declaration of [BaseProvider] is not in
    [orcid.go]; these are the fields [NewORCIDProvider] fills, the passive
    configuration data (display name, scopes, PKCE flag, authorization and
    token endpoint URLs) and the computed endpoint URL.  [ctx] is an
    interface value and may be nil. *)
Record BaseProvider : Type := {
  ctx : option Context;
  displayName : string;
  pkce : bool;
  scopes : list string;
  authURL : string;
  tokenURL : string;
  userInfoURL : string
}.

(** [type ORCID struct { BaseProvider }] *)
Record ORCID : Type := { base : BaseProvider }.

Definition set_userInfoURL (o : ORCID) (u : string) : ORCID :=
  {| base := {| ctx := ctx (base o);
                displayName := displayName (base o);
                pkce := pkce (base o);
                scopes := scopes (base o);
                authURL := authURL (base o);
                tokenURL := tokenURL (base o);
                userInfoURL := u |} |}.

(** Modelled from the spec: the declaration of [AuthUser] is not in
    [orcid.go]; these are the fields of the normalized identity that
    [FetchAuthUser] assigns (display name, username, primary email, raw
    profile mapping, access token, refresh token, stable identifier,
    expiry). *)
Record AuthUser : Type := {
  Name : string;
  Username : string;
  Email : string;
  RawUser : gmap string any;
  AccessToken : string;
  RefreshToken : string;
  Id : string;
  Expiry : DateTime
}.

Definition set_Expiry (u : AuthUser) (d : DateTime) : AuthUser :=
  {| Name := Name u; Username := Username u; Email := Email u;
     RawUser := RawUser u; AccessToken := AccessToken u;
     RefreshToken := RefreshToken u; Id := Id u; Expiry := d |}.

(** The anonymous struct [extracted] of [FetchAuthUser], the typed
    projection of the profile document. *)
Module Extracted.

(** [struct { Value string `json:"value"` }] *)
Record ValueT : Type := { Value : string }.

Record NameT : Type := {
  GivenNames : ValueT;    (* `json:"given-names"` *)
  FamilyName : ValueT;    (* `json:"family-name"` *)
  CreditName : ValueT     (* `json:"credit-name"` *)
}.

(** [struct { Email string `json:"email"` }] *)
Record EmailT : Type := { Email : string }.

Record EmailsT : Type := {
  Emails_Email : slice EmailT    (* `json:"email"` *)
}.

Record t : Type := {
  Name : NameT;        (* `json:"name"` *)
  Emails : EmailsT     (* `json:"emails"` *)
}.

Definition zero_ValueT : ValueT := {| Value := "" |}.
Definition zero_EmailT : EmailT := {| Email := "" |}.

(** [extracted := struct{...}{}]: every string empty, the slice nil. *)
Definition zero : t :=
  {| Name := {| GivenNames := zero_ValueT;
                FamilyName := zero_ValueT;
                CreditName := zero_ValueT |};
     Emails := {| Emails_Email := nil_slice |} |}.

End Extracted.

(** One call of the shared fetch helper: the request and the token it was
    given. *)
Definition Exchange : Type := Request * oauth2.Token.

(** What the method works on besides its argument: the provider instance
    behind the receiver [p], and the calls made so far to the fetch
    helper. *)
Record World : Type := { p : ORCID; sent : list Exchange }.

(** ** What lies outside the repository's source

    The parts of the libraries and of the network that are taken as given:
    - [url_syntax]: the syntax errors [url.Parse] reports for a string
      without control bytes (bad escapes, bad host or port), [None] when it
      parses;
    - [transport]: the answer of the profile endpoint to a request, given
      the provider configuration and the calls made before: the bytes of
      the response body, or a transport-level error;
    - [json_scan]: [encoding/json]'s syntax check of a text, giving the
      document or the message of the syntax error;
    - [ParseFloat]: [strconv.ParseFloat(s, 64)] on a JSON number literal,
      [None] when the value is out of range;
    - [foldName]: the Unicode simple case folding under which
      [encoding/json] matches an object key to a field name when no name
      matches exactly;
    - [DateTime_Scan]: the conversion of a [time.Time] to a
      [types.DateTime]. *)
Class Externals : Type := {
  url_syntax : string -> option string;
  transport : BaseProvider -> list Exchange -> Request -> oauth2.Token -> Result string;
  json_scan : string -> string + json;
  ParseFloat : string -> option float64;
  foldName : string -> string;
  DateTime_Scan : time_Time -> Result DateTime
}.

(** The method's computations: a state monad over the [World] whose
    results are Go result pairs. *)
Definition M (A : Type) : Type := World -> Result A * World.

#[global] Instance M_ret : MRet M := fun A a w => (Ok a, w).
#[global] Instance M_bind : MBind M := fun A B f m w =>
  match m w with
  | (Ok a, w') => f a w'
  | (Err e, w') => (Err e, w')
  end.

(** [return nil, err] *)
Definition throw {A} (e : error) : M A := fun w => (Err e, w).

(** [v, err := f(...); if err != nil { return nil, err }] *)
Definition lift {A} (r : Result A) : M A := fun w => (r, w).

Definition read_p : M ORCID := fun w => (Ok (p w), w).

Definition write_userInfoURL (u : string) : M unit := fun w =>
  (Ok tt, {| p := set_userInfoURL (p w) u; sent := sent w |}).

(** Folding and mapping a fallible function over a list, stopping at the
    first error. *)
Section Lists.

Context {A B : Type}.

Fixpoint foldM (f : A -> B -> Result A) (a : A) (l : list B) : Result A :=
  match l with
  | [] => Ok a
  | b :: r => a' ← f a b; foldM f a' r
  end.

Fixpoint mapM (f : B -> Result A) (l : list B) : Result (list A) :=
  match l with
  | [] => Ok []
  | b :: r => a ← f b; t ← mapM f r; Ok (a :: t)
  end.

End Lists.

Section Provider.

Context {ext : Externals}.

(** *** [url.Parse] and [http.NewRequestWithContext] *)

(** [url.Parse] cuts the fragment off at the first number sign, refuses
    what is left when it holds a control byte, and then analyses it. *)
Definition url_Parse (raw : string) : Result URL :=
  let u := before_hash raw in
  if stringContainsCTLByte u
  then Err (url_Error "parse" u "net/url: invalid control character in URL")
  else match url_syntax raw with
       | Some msg => Err (url_Error "parse" u msg)
       | None => Ok {| rawURL := raw |}
       end.

(** The request body is nil at the one call site and is left out; the
    message for an invalid method also quotes the method. *)
Definition NewRequestWithContext (c : option Context) (method url : string)
  : Result Request :=
  let method := if String.eqb method "" then "GET" else method in
  if negb (validMethod method)
  then Err (errorString "net/http: invalid method")
  else match c with
       | None => Err (errorString "net/http: nil Context")
       | Some c =>
           u ← url_Parse url;
           Ok {| Request_ctx := c; Method := method; Request_URL := u;
                 Header := ∅ |}
       end.

(** Modelled from the spec: [BaseProvider.sendRawUserInfoRequest] is not
    in [orcid.go].  It is the shared base collaborator providing
    authenticated HTTP request execution against a given URL with a
    bearer token, returning raw response bytes or a transport-level
    error.  Each call is one outbound request, recorded in [sent]. *)
Definition sendRawUserInfoRequest (req : Request) (token : oauth2.Token)
  : M string := fun w =>
  (transport (base (p w)) (sent w) req token,
   {| p := p w; sent := sent w ++ [(req, token)] |}).

(** Modelled from the spec: [types.ParseDateTime] is not in [orcid.go].
    It converts the token's expiry timestamp; a parse failure comes with
    the unset (zero) expiry.  Both results of the Go function are given:
    the value and the error, [None] for nil. *)
Definition ParseDateTime (value : time_Time) : DateTime * option error :=
  match DateTime_Scan value with
  | Ok d => (d, None)
  | Err e => (DateTime_zero, Some e)
  end.

(** *** [json.Unmarshal]

    [Unmarshal] first checks the whole text ([json_scan]) and then stores
    the document into the target.  A value that does not fit its target
    is recorded as a [json.UnmarshalTypeError] and skipped; the first
    such error is the one [Unmarshal] returns, which is what stopping at
    it gives here. *)

(** Storing into an [any]. *)
Fixpoint valueInterface (v : json) : Result any :=
  match v with
  | JNull => Ok any_nil
  | JBool b => Ok (any_bool b)
  | JNumber lit =>
      match ParseFloat lit with
      | Some f => Ok (any_float64 f)
      | None => Err (json_UnmarshalTypeError ("number " +:+ lit))
      end
  | JString s => Ok (any_string s)
  | JArray elems =>
      l ← mapM valueInterface elems;
      Ok (any_slice l)
  | JObject members =>
      m ← foldM (fun m kv => a ← valueInterface kv.2; Ok (<[kv.1 := a]> m)) ∅ members;
      Ok (any_map m)
  end.

(** Storing into a [map[string]any]: each member in turn, a later one
    replacing an earlier one under the same key; [null] makes the map
    nil. *)
Definition store_member (m : gmap string any) (kv : string * json)
  : Result (gmap string any) :=
  a ← valueInterface kv.2; Ok (<[kv.1 := a]> m).

Definition decode_map (v : json) (cur : gmap string any)
  : Result (gmap string any) :=
  match v with
  | JNull => Ok ∅
  | JObject members => foldM store_member cur members
  | other => Err (json_UnmarshalTypeError (json_kind other))
  end.

(** Storing into a [string]: [null] leaves it as it is. *)
Definition decode_string (v : json) (cur : string) : Result string :=
  match v with
  | JNull => Ok cur
  | JString s => Ok s
  | other => Err (json_UnmarshalTypeError (json_kind other))
  end.

(** The field a key selects: the one whose name is the key, else one
    whose name folds to the same as the key. *)
Definition find_field {T} (fields : list (string * (json -> T -> Result T)))
  (key : string) : option (json -> T -> Result T) :=
  match find (fun f => String.eqb f.1 key) fields with
  | Some f => Some f.2
  | None =>
      match find (fun f => String.eqb (foldName f.1) (foldName key)) fields with
      | Some f => Some f.2
      | None => None
      end
  end.

(** Storing into a struct: each member in turn into the field its key
    selects, on top of what the field holds; members with other keys are
    skipped; [null] leaves the struct as it is. *)
Definition decode_struct {T} (fields : list (string * (json -> T -> Result T)))
  (v : json) (cur : T) : Result T :=
  match v with
  | JNull => Ok cur
  | JObject members =>
      foldM (fun cur kv =>
               match find_field fields kv.1 with
               | Some store => store kv.2 cur
               | None => Ok cur
               end) cur members
  | other => Err (json_UnmarshalTypeError (json_kind other))
  end.

(** Storing into a slice: element [i] of the array is stored on top of
    what the backing array holds at [i] (the zero value beyond it); the
    length becomes that of the array; an empty array gives a fresh empty
    slice and [null] the nil slice. *)
Fixpoint decode_elems {T} (zero : T) (store : json -> T -> Result T)
  (elems : list json) (backing : list T) : Result (list T) :=
  match elems with
  | [] => Ok []
  | e :: r =>
      x ← store e (hd zero backing);
      xs ← decode_elems zero store r (tl backing);
      Ok (x :: xs)
  end.

Definition decode_slice {T} (zero : T) (store : json -> T -> Result T)
  (v : json) (cur : slice T) : Result (slice T) :=
  match v with
  | JNull => Ok nil_slice
  | JArray [] => Ok nil_slice
  | JArray elems =>
      let backing := items cur ++ spare cur in
      its ← decode_elems zero store elems backing;
      Ok {| items := its; spare := drop (length elems) backing |}
  | other => Err (json_UnmarshalTypeError (json_kind other))
  end.

Definition json_Unmarshal {T} (store : json -> T -> Result T)
  (data : string) (v : T) : Result T :=
  match json_scan data with
  | inl msg => Err (json_SyntaxError msg)
  | inr doc => store doc v
  end.

(** *** The typed projection

    The stores of the struct [extracted], field by field, under the
    names of the [json] tags. *)

Definition decode_ValueT : json -> Extracted.ValueT -> Result Extracted.ValueT :=
  decode_struct
    [("value", fun v cur =>
        s ← decode_string v (Extracted.Value cur);
        Ok {| Extracted.Value := s |})].

Definition decode_NameT : json -> Extracted.NameT -> Result Extracted.NameT :=
  decode_struct
    [("given-names", fun v cur =>
        x ← decode_ValueT v (Extracted.GivenNames cur);
        Ok {| Extracted.GivenNames := x;
              Extracted.FamilyName := Extracted.FamilyName cur;
              Extracted.CreditName := Extracted.CreditName cur |});
     ("family-name", fun v cur =>
        x ← decode_ValueT v (Extracted.FamilyName cur);
        Ok {| Extracted.GivenNames := Extracted.GivenNames cur;
              Extracted.FamilyName := x;
              Extracted.CreditName := Extracted.CreditName cur |});
     ("credit-name", fun v cur =>
        x ← decode_ValueT v (Extracted.CreditName cur);
        Ok {| Extracted.GivenNames := Extracted.GivenNames cur;
              Extracted.FamilyName := Extracted.FamilyName cur;
              Extracted.CreditName := x |})].

Definition decode_EmailT : json -> Extracted.EmailT -> Result Extracted.EmailT :=
  decode_struct
    [("email", fun v cur =>
        s ← decode_string v (Extracted.Email cur);
        Ok {| Extracted.Email := s |})].

Definition decode_EmailsT : json -> Extracted.EmailsT -> Result Extracted.EmailsT :=
  decode_struct
    [("email", fun v cur =>
        l ← decode_slice Extracted.zero_EmailT decode_EmailT v
              (Extracted.Emails_Email cur);
        Ok {| Extracted.Emails_Email := l |})].

Definition decode_extracted : json -> Extracted.t -> Result Extracted.t :=
  decode_struct
    [("name", fun v cur =>
        x ← decode_NameT v (Extracted.Name cur);
        Ok {| Extracted.Name := x; Extracted.Emails := Extracted.Emails cur |});
     ("emails", fun v cur =>
        x ← decode_EmailsT v (Extracted.Emails cur);
        Ok {| Extracted.Name := Extracted.Name cur; Extracted.Emails := x |})].

(** *** The provider *)

(** The message of the error for a token without identifier. *)
Definition missing_iD : string := "Failed to get ORCID iD from OAuth2 token".

(** [FetchAuthUser] returns an [AuthUser] instance based on the ORCID's
    user api. *)
Definition FetchAuthUser (token : oauth2.Token) : M AuthUser :=
  (* deriving userInfoURL from the iD (i.e. username) returned in the token *)
  let '(iD, ok) := assert_string (oauth2.Extra token "orcid") in
  if negb ok || String.eqb iD "" then
    throw (errorString missing_iD)
  else
    write_userInfoURL ("https://pub.orcid.org/v3.0/" +:+ iD +:+ "/person");;
    o ← read_p;
    req ← lift (NewRequestWithContext (ctx (base o)) "GET" (userInfoURL (base o)));
    let req := Request_AddHeader req "Accept" "application/json" in
    let req := Request_AddHeader req "Content-type" "application/json" in
    data ← sendRawUserInfoRequest req token;
    rawUser ← lift (json_Unmarshal decode_map data ∅);
    extracted ← lift (json_Unmarshal decode_extracted data Extracted.zero);
    let name := Extracted.Value (Extracted.CreditName (Extracted.Name extracted)) in
    let name :=
      if String.eqb name "" then
        (* GivenNames is a required field on ORCID, so it will always be set *)
        let name := Extracted.Value (Extracted.GivenNames (Extracted.Name extracted)) in
        if negb (String.eqb (Extracted.Value (Extracted.FamilyName (Extracted.Name extracted))) "")
        then name +:+ " " +:+ Extracted.Value (Extracted.FamilyName (Extracted.Name extracted))
        else name
      else name in
    let emails := items (Extracted.Emails_Email (Extracted.Emails extracted)) in
    let email :=
      if 0 <? length emails
      then Extracted.Email (nth 0 emails Extracted.zero_EmailT)
      else "" in
    let user := {| Name := name;
                   Username := iD;
                   Email := email;
                   RawUser := rawUser;
                   AccessToken := oauth2.AccessToken token;
                   RefreshToken := oauth2.RefreshToken token;
                   Id := iD;
                   Expiry := DateTime_zero |} in
    let user := set_Expiry user (ParseDateTime (oauth2.Expiry token)).1 in
    mret user.

End Provider.

(** [NameORCID] is the unique name of the ORCID provider. *)
Definition NameORCID : string := "ORCID".

(** [NewORCIDProvider] creates new ORCID provider instance with some
    defaults. *)
Definition NewORCIDProvider : ORCID :=
  {| base := {| ctx := Some context_Background;
                displayName := "ORCID";
                pkce := true;
                scopes := ["/authenticate"];
                authURL := "https://orcid.org/oauth/authorize";
                tokenURL := "https://orcid.org/oauth/token";
                userInfoURL := "" (* this is set later as it must be derived from the returned token *)
             |} |}.

(** The same surroundings with another conversion of timestamps. *)
Definition with_DateTime_Scan (ext : Externals)
    (scan : time_Time -> Result DateTime) : Externals :=
  {| url_syntax := @url_syntax ext;
     transport := @transport ext;
     json_scan := @json_scan ext;
     ParseFloat := @ParseFloat ext;
     foldName := @foldName ext;
     DateTime_Scan := scan |}.

(** ** A sample world

    One concrete choice of what lies outside the source, on which the
    method can be run: a profile endpoint that serves a few documents, and
    the library functions on the inputs these runs meet. *)
Module Sample.

(** The double quote character. *)
Definition dq : string := String (ascii_of_nat 34) EmptyString.

(** The compact JSON text of a document whose strings need no escape. *)
Fixpoint render (v : json) : string :=
  match v with
  | JNull => "null"
  | JBool b => if b then "true" else "false"
  | JNumber lit => lit
  | JString s => dq +:+ s +:+ dq
  | JArray elems =>
      "[" +:+
      (fix elements (first : bool) (l : list json) : string :=
         match l with
         | [] => ""
         | e :: r => (if first then "" else ",") +:+ render e +:+ elements false r
         end) true elems
      +:+ "]"
  | JObject members =>
      "{" +:+
      (fix pairs (first : bool) (l : list (string * json)) : string :=
         match l with
         | [] => ""
         | (k, x) :: r =>
             (if first then "" else ",") +:+ dq +:+ k +:+ dq +:+ ":" +:+ render x
             +:+ pairs false r
         end) true members
      +:+ "}"
  end.

Definition value_of (s : string) : json := JObject [("value", JString s)].

(** The profile of the specification's scenario. *)
Definition ada : json :=
  JObject
    [("name", JObject [("given-names", value_of "Ada");
                       ("family-name", value_of "Lovelace");
                       ("credit-name", value_of "")]);
     ("emails", JObject [("email", JArray [JObject [("email", JString "ada@example.org")]])])].

(** A profile with a credit name, two addresses and members the typed
    projection does not know. *)
Definition grace : json :=
  JObject
    [("last-modified-date", JObject [("value", JNumber "1460763728406")]);
     ("name", JObject [("given-names", value_of "Grace");
                       ("family-name", value_of "Hopper");
                       ("credit-name", value_of "G. M. Hopper");
                       ("visibility", JString "public")]);
     ("emails", JObject [("email", JArray [JObject [("email", JString "a@x.com");
                                                     ("primary", JBool true)];
                                            JObject [("email", JString "b@x.com")]])]);
     ("path", JString "/0000-0002-1825-0097/person")].

(** A profile whose owner shows neither a name nor an address. *)
Definition hidden : json :=
  JObject
    [("name", JNull);
     ("emails", JObject [("email", JArray [])]);
     ("path", JString "/0000-0003-1415-9269/person")].

(** A JSON object that does not have the shape of a profile. *)
Definition misshapen : json := JObject [("name", JString "Ada Lovelace")].

Definition documents : list json := [ada; grace; hidden; misshapen].

Definition endpoint (iD : string) : string :=
  "https://pub.orcid.org/v3.0/" +:+ iD +:+ "/person".

(** What the endpoint answers, by the URL asked for. *)
Definition served : list (string * string) :=
  [(endpoint "0000-0001-2345-6789", render ada);
   (endpoint "0000-0002-1825-0097", render grace);
   (endpoint "0000-0003-1415-9269", render hidden);
   (endpoint "0000-0002-9079-593X", render misshapen);
   (endpoint "0000-0001-5109-3700", "<html>Service Unavailable</html>")].

Definition lookup_text {A} (key : string) (table : list (string * A)) : option A :=
  snd <$> find (fun kv => String.eqb kv.1 key) table.

#[local] Instance ext : Externals := {|
  url_syntax := fun _ => None;
  transport := fun _ _ req _ =>
    match lookup_text (rawURL (Request_URL req)) served with
    | Some body => Ok body
    | None => Err (transportError "404 Not Found")
    end;
  json_scan := fun text =>
    match find (fun d => String.eqb (render d) text) documents with
    | Some d => inr d
    | None => inl "invalid character looking for beginning of value"
    end;
  ParseFloat := fun lit =>
    lookup_text lit [("1460763728406", S754_finite false 5983288231550976%positive (-12)%Z)];
  foldName := fun s => string_of_list_ascii (map upper (list_ascii_of_string s));
  DateTime_Scan := fun t => Ok {| DateTime_t := t |}
|}.

(** The same world with a date parser that fails. *)
Definition ext_no_date : Externals :=
  with_DateTime_Scan ext (fun _ => Err (errorString "parsing time: out of range")).

Definition token (iD : any) : oauth2.Token :=
  {| oauth2.AccessToken := "4bed1e13-7792-4129-9f07-aaf7b88ba88f";
     oauth2.RefreshToken := "2d76d8d0-6fd6-426b-a017-61e0ceda0ad2";
     oauth2.Expiry := 63900000000000000000%Z;
     oauth2.raw := {[ "name" := any_string "Ada Lovelace"; "orcid" := iD ]} |}.

Definition start : World := {| p := NewORCIDProvider; sent := [] |}.

(** The token of the scenario and what the call must give for it. *)
Definition ada_token : oauth2.Token := token (any_string "0000-0001-2345-6789").

Definition request_for (iD : string) : Request :=
  {| Request_ctx := context_Background;
     Method := "GET";
     Request_URL := {| rawURL := endpoint iD |};
     Header := {[ "Accept" := ["application/json"];
                  "Content-Type" := ["application/json"] ]} |}.

Definition ada_identity : AuthUser :=
  {| Name := "Ada Lovelace";
     Username := "0000-0001-2345-6789";
     Email := "ada@example.org";
     RawUser :=
       {[ "name" :=
            any_map {[ "given-names" := any_map {[ "value" := any_string "Ada" ]};
                       "family-name" := any_map {[ "value" := any_string "Lovelace" ]};
                       "credit-name" := any_map {[ "value" := any_string "" ]} ]};
          "emails" :=
            any_map {[ "email" :=
                         any_slice [any_map {[ "email" := any_string "ada@example.org" ]}] ]} ]};
     AccessToken := "4bed1e13-7792-4129-9f07-aaf7b88ba88f";
     RefreshToken := "2d76d8d0-6fd6-426b-a017-61e0ceda0ad2";
     Id := "0000-0001-2345-6789";
     Expiry := {| DateTime_t := 63900000000000000000%Z |} |}.

(** The typed projection of the scenario's profile. *)
Definition ada_extracted : Extracted.t :=
  {| Extracted.Name :=
       {| Extracted.GivenNames := {| Extracted.Value := "Ada" |};
          Extracted.FamilyName := {| Extracted.Value := "Lovelace" |};
          Extracted.CreditName := {| Extracted.Value := "" |} |};
     Extracted.Emails :=
       {| Extracted.Emails_Email :=
            {| items := [{| Extracted.Email := "ada@example.org" |}];
               spare := [] |} |} |}.

Definition ada_world : World :=
  {| p := set_userInfoURL NewORCIDProvider (endpoint "0000-0001-2345-6789");
     sent := [(request_for "0000-0001-2345-6789", ada_token)] |}.

(** Tokens for the other profiles, and tokens without identifier. *)
Definition grace_token : oauth2.Token := token (any_string "0000-0002-1825-0097").
Definition hidden_token : oauth2.Token := token (any_string "0000-0003-1415-9269").
Definition misshapen_token : oauth2.Token := token (any_string "0000-0002-9079-593X").
Definition numeric_token : oauth2.Token := token (any_float64 (S754_zero false)).
Definition empty_token : oauth2.Token := token (any_string "").
Definition bare_token : oauth2.Token :=
  {| oauth2.AccessToken := "4bed1e13-7792-4129-9f07-aaf7b88ba88f";
     oauth2.RefreshToken := "2d76d8d0-6fd6-426b-a017-61e0ceda0ad2";
     oauth2.Expiry := 63900000000000000000%Z;
     oauth2.raw := {[ "name" := any_string "Ada Lovelace" ]} |}.

(** An identifier with a line feed at its end. *)
Definition broken_iD : string :=
  "0000-0001-2345-6789" +:+ String (ascii_of_nat 10) EmptyString.
Definition broken_token : oauth2.Token := token (any_string broken_iD).

End Sample.

(** * The notions of the statements *)

(** The error kinds of the specification, read off the error values. *)
Definition MissingIdentifierError (e : error) : Prop :=
  e = errorString missing_iD.

Definition MalformedResponseError (e : error) : Prop :=
  match e with
  | json_SyntaxError _ | json_UnmarshalTypeError _ => True
  | _ => False
  end.

(** The value of the last member with key [k] of an object. *)
Fixpoint member_value (k : string) (members : list (string * json)) : option json :=
  match members with
  | [] => None
  | (k0, x0) :: r =>
      match member_value k r with
      | Some x => Some x
      | None => if decide (k0 = k) then Some x0 else None
      end
  end.

(** The request [FetchAuthUser] builds from a context and a parsed URL. *)
Definition profile_request (c : Context) (u : URL) : Request :=
  Request_AddHeader
    (Request_AddHeader
       {| Request_ctx := c; Method := "GET"; Request_URL := u; Header := ∅ |}
       "Accept" "application/json")
    "Content-type" "application/json".

(** The identity a run returned, if it returned one. *)
Definition identity_of (r : Result AuthUser * World) : option AuthUser :=
  match r.1 with
  | Ok user => Some user
  | Err _ => None
  end.

Section Notions.

Context {ext : Externals}.

(** A store fails with a malformed-response error only. *)
Definition fails_malformed {T} (store : json -> T -> Result T) : Prop :=
  forall v cur e, store v cur = Err e -> MalformedResponseError e.

(** The call that a run added to the log was answered with [data]. *)
Definition answered (token : oauth2.Token) (w w' : World) (data : string) : Prop :=
  exists req,
    sent w' = sent w ++ [(req, token)] /\
    transport (base (p w')) (sent w) req token = Ok data.

End Notions.

(** ** Calls in sequence, and endpoints with one answer *)

(** The world after the calls for a list of tokens, one after the other on
    the same provider instance. *)
Definition after_calls {ext : Externals} (tokens : list oauth2.Token) (w : World)
  : World :=
  fold_left (fun w token => (FetchAuthUser token w).2) tokens w.

(** Surroundings in which the endpoint answers every request with [body],
    whose syntax check gives [doc]. *)
Definition one_body (body : string) (doc : string + json) : Externals :=
  {| url_syntax := fun _ => None;
     transport := fun _ _ _ _ => Ok body;
     json_scan := fun text =>
       if String.eqb text body then doc else inl "unexpected end of JSON input";
     ParseFloat := fun _ => None;
     foldName := @foldName Sample.ext;
     DateTime_Scan := @DateTime_Scan Sample.ext |}.

(** A profile with a path only. *)
Definition path_only : json :=
  JObject [("path", JString "/0000-0001-2345-6789/person")].

(** * Properties *)

(** An induction principle for documents that reaches the elements of
    arrays and the values of objects. *)
Lemma json_ind' (P : json -> Prop) :
  P JNull ->
  (forall b, P (JBool b)) ->
  (forall lit, P (JNumber lit)) ->
  (forall s, P (JString s)) ->
  (forall elems, Forall P elems -> P (JArray elems)) ->
  (forall members, Forall (fun kv => P kv.2) members -> P (JObject members)) ->
  forall v, P v.
Proof.
  intros Hnull Hbool Hnum Hstr Harr Hobj.
  fix IH 1. intros [ | b | lit | s | elems | members ].
  - exact Hnull.
  - apply Hbool.
  - apply Hnum.
  - apply Hstr.
  - apply Harr. induction elems as [ | e r IHr ]; constructor; [ apply IH | exact IHr ].
  - apply Hobj. induction members as [ | [k x] r IHr ]; constructor; [ apply IH | exact IHr ].
Qed.


Lemma member_value_None k members :
  member_value k members = None -> k ∉ members.*1.
Proof.
  induction members as [ | [k0 x0] r IH ]; simpl; intros Hn.
  - apply not_elem_of_nil.
  - destruct (member_value k r); [ discriminate | ].
    destruct (decide (k0 = k)); [ discriminate | ].
    apply not_elem_of_cons. split; [ congruence | by apply IH ].
Qed.

Lemma member_value_Some k x members :
  member_value k members = Some x -> (k, x) ∈ members.
Proof.
  induction members as [ | [k0 x0] r IH ]; simpl; [ discriminate | ].
  destruct (member_value k r) as [x' | ].
  - intros [= ->]. right. by apply IH.
  - destruct (decide (k0 = k)) as [-> | ]; [ | discriminate ].
    intros [= ->]. by left.
Qed.


Section Properties.

Context {ext : Externals}.

Lemma assert_string_true x s : assert_string x = (s, true) -> x = any_string s.
Proof. destruct x; simpl; congruence. Qed.

Lemma eqb_empty_false (s : string) : s ≠ "" -> String.eqb s "" = false.
Proof. intros Hs. by apply String.eqb_neq. Qed.

(** *** The errors of [json.Unmarshal] *)

Lemma foldM_error {A B} (Q : error -> Prop) (f : A -> B -> Result A) l :
  (forall a b e, b ∈ l -> f a b = Err e -> Q e) ->
  forall a e, foldM f a l = Err e -> Q e.
Proof.
  induction l as [ | b r IH ]; intros Hf a e; simpl; [ discriminate | ].
  destruct (f a b) as [a' | e'] eqn:Hfa; simpl.
  - apply IH. intros a0 b0 e0 Hin. apply Hf. by right.
  - intros [= <-]. eapply Hf; [ by left | exact Hfa ].
Qed.

Lemma mapM_error {A B} (Q : error -> Prop) (f : B -> Result A) l :
  Forall (fun b => forall e, f b = Err e -> Q e) l ->
  forall e, mapM f l = Err e -> Q e.
Proof.
  induction 1 as [ | b r Hb _ IH ]; intros e; simpl; [ discriminate | ].
  destruct (f b) eqn:Hfb; simpl; [ | intros [= <-]; by apply Hb ].
  destruct (mapM f r) eqn:Hr; simpl; [ discriminate | ].
  intros [= <-]. by apply IH.
Qed.

Lemma valueInterface_error v e :
  valueInterface v = Err e -> MalformedResponseError e.
Proof.
  revert e. induction v as [ | b | lit | s | elems IH | members IH ] using json_ind';
    intros e; simpl; try discriminate.
  - destruct (ParseFloat lit); [ discriminate | ]. by intros [= <-].
  - destruct (mapM valueInterface elems) eqn:Hm; simpl; [ discriminate | ].
    intros [= <-]. revert Hm. by apply mapM_error.
  - destruct (foldM _ _ members) eqn:Hm; simpl; [ discriminate | ].
    intros [= <-]. revert Hm. apply foldM_error.
    intros m [k x] err Hin; simpl.
    destruct (valueInterface x) eqn:Hx; simpl; [ discriminate | ].
    intros [= <-]. rewrite Forall_forall in IH. by apply (IH (k, x)).
Qed.

Lemma decode_map_error v cur e :
  decode_map v cur = Err e -> MalformedResponseError e.
Proof.
  destruct v; simpl; try discriminate; try (by intros [= <-]).
  apply foldM_error. intros m [k x] err _. unfold store_member; simpl.
  destruct (valueInterface x) eqn:Hx; simpl; [ discriminate | ].
  intros [= <-]. by eapply valueInterface_error.
Qed.

Lemma decode_string_error v cur e :
  decode_string v cur = Err e -> MalformedResponseError e.
Proof. destruct v; simpl; try discriminate; by intros [= <-]. Qed.

Lemma find_field_elem {T} (fields : list (string * (json -> T -> Result T))) key store :
  find_field fields key = Some store -> exists f, f ∈ fields /\ f.2 = store.
Proof.
  unfold find_field.
  destruct (find _ fields) as [f | ] eqn:Hexact.
  - intros [= <-]. apply find_some in Hexact as [Hin _].
    exists f. split; [ by apply list_elem_of_In | done ].
  - clear Hexact. destruct (find _ fields) as [f | ] eqn:Hfold; [ | discriminate ].
    intros [= <-]. apply find_some in Hfold as [Hin _].
    exists f. split; [ by apply list_elem_of_In | done ].
Qed.

Lemma decode_struct_error {T} (fields : list (string * (json -> T -> Result T))) :
  Forall (fun f => fails_malformed f.2) fields ->
  fails_malformed (decode_struct fields).
Proof.
  intros Hfields v cur e.
  destruct v; simpl; try discriminate; try (by intros [= <-]).
  apply foldM_error. intros a [k x] err _; simpl.
  destruct (find_field fields k) as [store | ] eqn:Hfind; [ | discriminate ].
  apply find_field_elem in Hfind as (f & Hin & <-).
  rewrite Forall_forall in Hfields. by apply Hfields.
Qed.

Lemma decode_elems_error {T} (zero : T) store :
  fails_malformed store ->
  forall elems backing e,
    decode_elems zero store elems backing = Err e -> MalformedResponseError e.
Proof.
  intros Hstore elems.
  induction elems as [ | x r IH ]; intros backing e; simpl; [ discriminate | ].
  destruct (store x _) eqn:Hx; simpl; [ | intros [= <-]; by eapply Hstore ].
  destruct (decode_elems zero store r _) eqn:Hr; simpl; [ discriminate | ].
  intros [= <-]. by eapply IH.
Qed.

Lemma decode_slice_error {T} (zero : T) store :
  fails_malformed store -> fails_malformed (decode_slice zero store).
Proof.
  intros Hstore v cur e.
  destruct v as [ | | | | elems | ]; simpl; try discriminate; try (by intros [= <-]).
  destruct elems as [ | x r ]; [ discriminate | ].
  destruct (decode_elems _ _ _ _) eqn:Hd; simpl; [ discriminate | ].
  intros [= <-]. by eapply decode_elems_error.
Qed.

(** A field store that decodes the field and puts it back fails only as
    the decoder of the field does. *)
Lemma field_store_error {T F} (dec : json -> F -> Result F) (get : T -> F)
    (put : T -> F -> T) :
  fails_malformed dec ->
  fails_malformed (fun v cur => x ← dec v (get cur); Ok (put cur x)).
Proof.
  intros Hdec v cur e. simpl.
  destruct (dec v (get cur)) eqn:Hd; simpl; [ discriminate | ].
  intros [= <-]. by eapply Hdec.
Qed.

Lemma decode_string_fails : fails_malformed decode_string.
Proof. intros v cur e. apply decode_string_error. Qed.

Lemma decode_ValueT_error : fails_malformed decode_ValueT.
Proof.
  apply decode_struct_error. repeat constructor; simpl.
  apply (field_store_error decode_string Extracted.Value
           (fun _ s => {| Extracted.Value := s |})), decode_string_fails.
Qed.

Lemma decode_NameT_error : fails_malformed decode_NameT.
Proof.
  apply decode_struct_error. repeat constructor; simpl.
  - apply (field_store_error decode_ValueT Extracted.GivenNames
             (fun cur x => {| Extracted.GivenNames := x;
                              Extracted.FamilyName := Extracted.FamilyName cur;
                              Extracted.CreditName := Extracted.CreditName cur |})),
      decode_ValueT_error.
  - apply (field_store_error decode_ValueT Extracted.FamilyName
             (fun cur x => {| Extracted.GivenNames := Extracted.GivenNames cur;
                              Extracted.FamilyName := x;
                              Extracted.CreditName := Extracted.CreditName cur |})),
      decode_ValueT_error.
  - apply (field_store_error decode_ValueT Extracted.CreditName
             (fun cur x => {| Extracted.GivenNames := Extracted.GivenNames cur;
                              Extracted.FamilyName := Extracted.FamilyName cur;
                              Extracted.CreditName := x |})),
      decode_ValueT_error.
Qed.

Lemma decode_EmailT_error : fails_malformed decode_EmailT.
Proof.
  apply decode_struct_error. repeat constructor; simpl.
  apply (field_store_error decode_string Extracted.Email
           (fun _ s => {| Extracted.Email := s |})), decode_string_fails.
Qed.

Lemma decode_EmailsT_error : fails_malformed decode_EmailsT.
Proof.
  apply decode_struct_error. repeat constructor; simpl.
  apply (field_store_error (decode_slice Extracted.zero_EmailT decode_EmailT)
           Extracted.Emails_Email
           (fun _ l => {| Extracted.Emails_Email := l |})),
    decode_slice_error, decode_EmailT_error.
Qed.

Lemma decode_extracted_error : fails_malformed decode_extracted.
Proof.
  apply decode_struct_error. repeat constructor; simpl.
  - apply (field_store_error decode_NameT Extracted.Name
             (fun cur x => {| Extracted.Name := x;
                              Extracted.Emails := Extracted.Emails cur |})),
      decode_NameT_error.
  - apply (field_store_error decode_EmailsT Extracted.Emails
             (fun cur x => {| Extracted.Name := Extracted.Name cur;
                              Extracted.Emails := x |})),
      decode_EmailsT_error.
Qed.

Lemma json_Unmarshal_error {T} (store : json -> T -> Result T) data v e :
  fails_malformed store ->
  json_Unmarshal store data v = Err e -> MalformedResponseError e.
Proof.
  intros Hstore. unfold json_Unmarshal.
  destruct (json_scan data) as [msg | doc].
  - by intros [= <-].
  - apply Hstore.
Qed.

(** *** What the map holds after a store *)

Lemma store_member_eq m k x :
  store_member m (k, x) =
  match valueInterface x with
  | Ok a => Ok (<[k := a]> m)
  | Err e => Err e
  end.
Proof. reflexivity. Qed.

Lemma foldM_cons {A B} (f : A -> B -> Result A) a b r :
  foldM f a (b :: r) =
  match f a b with
  | Ok a' => foldM f a' r
  | Err e => Err e
  end.
Proof. reflexivity. Qed.

Lemma foldM_store_member members :
  forall m m', foldM store_member m members = Ok m' ->
  forall k,
    m' !! k =
    match member_value k members with
    | Some x => match valueInterface x with Ok a => Some a | Err _ => None end
    | None => m !! k
    end.
Proof.
  induction members as [ | [k0 x0] r IH ]; intros m m'.
  - by intros [= <-] k.
  - rewrite foldM_cons, store_member_eq.
    destruct (valueInterface x0) as [a0 | ] eqn:Hx0; [ | discriminate ].
    intros Hr k. rewrite (IH _ _ Hr k). simpl.
    destruct (member_value k r); [ done | ].
    destruct (decide (k0 = k)) as [-> | Hne].
    + by rewrite Hx0, lookup_insert_eq.
    + by rewrite lookup_insert_ne.
Qed.


End Properties.

(** * The claims of the specification *)

Section Claims.

Context {ext : Externals}.

(** ** How a call runs *)

Lemma NewRequest_GET c url :
  NewRequestWithContext c "GET" url =
  match c with
  | None => Err (errorString "net/http: nil Context")
  | Some c =>
      match url_Parse url with
      | Ok u => Ok {| Request_ctx := c; Method := "GET"; Request_URL := u;
                      Header := ∅ |}
      | Err e => Err e
      end
  end.
Proof. reflexivity. Qed.

Lemma guard_passed x iD ok :
  assert_string x = (iD, ok) -> negb ok || String.eqb iD "" = false ->
  x = any_string iD /\ iD ≠ "".
Proof.
  intros Has Hg. apply orb_false_elim in Hg as [Hok Hne].
  apply negb_false_iff in Hok. subst ok.
  split; [ by apply assert_string_true | by apply String.eqb_neq ].
Qed.

Lemma Extra_string token key s :
  oauth2.Extra token key = any_string s <->
  oauth2.raw token !! key = Some (any_string s).
Proof.
  unfold oauth2.Extra. destruct (oauth2.raw token !! key); simpl; split; congruence.
Qed.

Lemma not_app_singleton {A} (l : list A) x : l ≠ l ++ [x].
Proof.
  intros Heq. apply (f_equal length) in Heq.
  rewrite length_app in Heq. simpl in Heq. lia.
Qed.

Lemma append_space_nonempty (s1 s2 : string) : s1 +:+ " " +:+ s2 ≠ "".
Proof. destruct s1; discriminate. Qed.

(** The world a call leaves: unchanged without identifier; otherwise the
    endpoint URL is written, and the request is logged once it could be
    built. *)
Lemma FetchAuthUser_world token w :
  (FetchAuthUser token w).2 =
  match oauth2.Extra token "orcid" with
  | any_string iD =>
      if String.eqb iD "" then w
      else
        let target := "https://pub.orcid.org/v3.0/" +:+ iD +:+ "/person" in
        let o := set_userInfoURL (p w) target in
        match ctx (base (p w)), url_Parse target with
        | Some c, Ok u =>
            {| p := o; sent := sent w ++ [(profile_request c u, token)] |}
        | _, _ => {| p := o; sent := sent w |}
        end
  | _ => w
  end.
Proof.
  unfold FetchAuthUser.
  destruct (oauth2.Extra token "orcid") as [ | | | iD | | ]; try reflexivity.
  simpl. destruct (String.eqb iD ""); [ reflexivity | ].
  unfold mbind, M_bind, write_userInfoURL, read_p, lift, sendRawUserInfoRequest,
    mret, M_ret; simpl.
  rewrite NewRequest_GET.
  destruct (ctx (base (p w))) as [c | ]; [ | reflexivity ].
  destruct (url_Parse _) as [u | ]; [ | reflexivity ].
  destruct (transport _ _ _ _); [ | reflexivity ].
  destruct (json_Unmarshal decode_map _ _); [ | reflexivity ].
  destruct (json_Unmarshal decode_extracted _ _); reflexivity.
Qed.

(** What [answered] says of a call: the token carries an identifier, the
    request was built, and the helper gave [data] for it. *)
Lemma answered_inv token w data :
  answered token w (FetchAuthUser token w).2 data ->
  exists iD c u,
    oauth2.Extra token "orcid" = any_string iD /\ iD ≠ "" /\
    ctx (base (p w)) = Some c /\
    url_Parse ("https://pub.orcid.org/v3.0/" +:+ iD +:+ "/person") = Ok u /\
    transport
      (base (set_userInfoURL (p w) ("https://pub.orcid.org/v3.0/" +:+ iD +:+ "/person")))
      (sent w) (profile_request c u) token = Ok data.
Proof.
  intros (req & Hsent & Hdata). revert Hsent Hdata.
  rewrite FetchAuthUser_world.
  destruct (oauth2.Extra token "orcid") as [ | | | iD | | ];
    try (intros Hsent; by apply not_app_singleton in Hsent).
  destruct (String.eqb iD "") eqn:HiD;
    [ intros Hsent; by apply not_app_singleton in Hsent | ].
  apply String.eqb_neq in HiD. simpl.
  destruct (ctx (base (p w))) as [c | ] eqn:Hctx;
    [ | intros Hsent; by apply not_app_singleton in Hsent ].
  destruct (url_Parse _) as [u | ] eqn:Hurl;
    [ | intros Hsent; by apply not_app_singleton in Hsent ].
  simpl. intros Hsent Hdata.
  apply app_inv_head in Hsent. injection Hsent as <-.
  exists iD, c, u. repeat split; try done. rewrite <- Hctx. exact Hdata.
Qed.

(** The result of a call that was answered with [data]: the two parses of
    [data], and the identity put together from them. *)
Lemma FetchAuthUser_answered token w data :
  answered token w (FetchAuthUser token w).2 data ->
  exists iD,
    oauth2.raw token !! "orcid" = Some (any_string iD) /\ iD ≠ "" /\
    match json_Unmarshal decode_map data ∅,
          json_Unmarshal decode_extracted data Extracted.zero with
    | Ok rawUser, Ok extracted =>
        let credit := Extracted.Value (Extracted.CreditName (Extracted.Name extracted)) in
        let given := Extracted.Value (Extracted.GivenNames (Extracted.Name extracted)) in
        let family := Extracted.Value (Extracted.FamilyName (Extracted.Name extracted)) in
        let emails := items (Extracted.Emails_Email (Extracted.Emails extracted)) in
        exists user,
          (FetchAuthUser token w).1 = Ok user /\
          Name user =
            (if String.eqb credit ""
             then if String.eqb family "" then given else given +:+ " " +:+ family
             else credit) /\
          Username user = iD /\
          Email user =
            match emails with
            | first :: _ => Extracted.Email first
            | [] => ""
            end /\
          RawUser user = rawUser /\
          AccessToken user = oauth2.AccessToken token /\
          RefreshToken user = oauth2.RefreshToken token /\
          Id user = iD /\
          Expiry user = (ParseDateTime (oauth2.Expiry token)).1
    | Ok _, Err e | Err e, _ => (FetchAuthUser token w).1 = Err e
    end.
Proof.
  intros Hans.
  apply answered_inv in Hans as (iD & c & u & Hextra & HiD & Hctx & Hurl & Hdata).
  exists iD. split; [ by apply Extra_string | split; [ done | ] ].
  destruct (FetchAuthUser token w) as [r w'] eqn:Hrun. simpl.
  unfold FetchAuthUser in Hrun. rewrite Hextra in Hrun. simpl in Hrun.
  rewrite (eqb_empty_false _ HiD) in Hrun.
  unfold mbind, M_bind, write_userInfoURL, read_p, lift, sendRawUserInfoRequest,
    mret, M_ret in Hrun; simpl in Hrun.
  rewrite NewRequest_GET, Hctx, Hurl in Hrun.
  unfold profile_request in Hdata. simpl in Hdata. rewrite Hctx in Hdata.
  rewrite Hdata in Hrun.
  destruct (json_Unmarshal decode_map data ∅) as [rawUser | e1].
  - destruct (json_Unmarshal decode_extracted data Extracted.zero)
      as [extracted | e2]; injection Hrun as <- _; [ | reflexivity ].
    eexists. split; [ reflexivity | ]. simpl.
    repeat split.
    + destruct (String.eqb (Extracted.Value (Extracted.CreditName _)) "");
        [ | reflexivity ].
      by destruct (String.eqb (Extracted.Value (Extracted.FamilyName _)) "").
    + by destruct (items _).
  - by injection Hrun as <- _.
Qed.

(** A call that returns an identity was answered, and both parses of the
    answer went through. *)
Lemma FetchAuthUser_Ok token w user w' :
  FetchAuthUser token w = (Ok user, w') ->
  w' = (FetchAuthUser token w).2 /\
  exists data rawUser extracted,
    answered token w w' data /\
    json_Unmarshal decode_map data ∅ = Ok rawUser /\
    json_Unmarshal decode_extracted data Extracted.zero = Ok extracted.
Proof.
  intros H. split; [ by rewrite H | ].
  unfold FetchAuthUser in H.
  destruct (assert_string _) as [iD ok] eqn:Has.
  destruct (negb ok || String.eqb iD "") eqn:Hguard; [ discriminate H | ].
  unfold mbind, M_bind, write_userInfoURL, read_p, lift, sendRawUserInfoRequest,
    mret, M_ret in H.
  simpl in H. rewrite NewRequest_GET in H.
  destruct (ctx (base _)) as [c | ] eqn:Hctx; [ | discriminate H ].
  destruct (url_Parse _) as [u | ] eqn:Hurl; [ | discriminate H ].
  destruct (transport _ _ _ _) as [data | ] eqn:Hdata; [ | discriminate H ].
  rewrite <- Hctx in Hdata.
  destruct (json_Unmarshal decode_map _ _) as [rawUser | ] eqn:Hraw;
    [ | discriminate H ].
  destruct (json_Unmarshal decode_extracted _ _) as [extracted | ] eqn:Htyped;
    [ | discriminate H ].
  injection H as <- <-.
  exists data, rawUser, extracted. repeat split; try done.
  eexists. split; [ reflexivity | exact Hdata ].
Qed.

(** What a successful call was answered and returned, in one. *)
Lemma FetchAuthUser_Ok_fields token w user w' :
  FetchAuthUser token w = (Ok user, w') ->
  exists iD data rawUser extracted,
    oauth2.raw token !! "orcid" = Some (any_string iD) /\ iD ≠ "" /\
    answered token w w' data /\
    json_Unmarshal decode_map data ∅ = Ok rawUser /\
    json_Unmarshal decode_extracted data Extracted.zero = Ok extracted /\
    let credit := Extracted.Value (Extracted.CreditName (Extracted.Name extracted)) in
    let given := Extracted.Value (Extracted.GivenNames (Extracted.Name extracted)) in
    let family := Extracted.Value (Extracted.FamilyName (Extracted.Name extracted)) in
    Name user =
      (if String.eqb credit ""
       then if String.eqb family "" then given else given +:+ " " +:+ family
       else credit) /\
    Username user = iD /\ Id user = iD /\ RawUser user = rawUser.
Proof.
  intros H. destruct (FetchAuthUser_Ok _ _ _ _ H)
    as (Hw' & data & rawUser & extracted & Hans & Hraw & Htyped).
  assert (Hr : (FetchAuthUser token w).1 = Ok user) by (by rewrite H).
  rewrite Hw' in Hans.
  destruct (FetchAuthUser_answered _ _ _ Hans) as (iD & Hextra & HiD & Hres).
  rewrite Hraw, Htyped in Hres.
  destruct Hres as (user' & Hr' & HName & HUser & _ & HRaw & _ & _ & HId & _).
  rewrite Hr in Hr'. injection Hr' as <-.
  exists iD, data, rawUser, extracted. rewrite Hw'. by repeat split.
Qed.

(** ** The claims *)

(** C1.  Name normalization follows the fallback chain: for a profile that
    was fetched and parsed, the call returns an identity whose name is the
    credit-name value when that is not empty; otherwise the given-names
    value, a space and the family-name value when the family-name value is
    not empty; otherwise the given-names value alone, empty or not. *)
Theorem name_normalization token w data rawUser extracted :
  answered token w (FetchAuthUser token w).2 data ->
  json_Unmarshal decode_map data ∅ = Ok rawUser ->
  json_Unmarshal decode_extracted data Extracted.zero = Ok extracted ->
  let credit := Extracted.Value (Extracted.CreditName (Extracted.Name extracted)) in
  let given := Extracted.Value (Extracted.GivenNames (Extracted.Name extracted)) in
  let family := Extracted.Value (Extracted.FamilyName (Extracted.Name extracted)) in
  exists user,
    (FetchAuthUser token w).1 = Ok user /\
    (credit ≠ "" -> Name user = credit) /\
    (credit = "" -> family ≠ "" -> Name user = given +:+ " " +:+ family) /\
    (credit = "" -> family = "" -> Name user = given).
Proof.
  intros Hans Hraw Htyped credit given family.
  destruct (FetchAuthUser_answered _ _ _ Hans) as (iD & _ & _ & Hres).
  rewrite Hraw, Htyped in Hres.
  destruct Hres as (user & Hr & HName & _).
  exists user. split; [ exact Hr | ]. rewrite HName. fold credit given family.
  repeat split.
  - intros Hc. by rewrite (eqb_empty_false _ Hc).
  - intros -> Hf. simpl. by rewrite (eqb_empty_false _ Hf).
  - by intros -> ->.
Qed.

(** C2.  A token whose extra fields lack the key "orcid", or hold the
    empty string or a value that is not a string under it, makes
    [FetchAuthUser] return the missing-identifier error with no
    identity, in an unchanged world: the fetch helper is not called. *)
Theorem missing_identifier token w :
  oauth2.raw token !! "orcid" = None \/
  oauth2.raw token !! "orcid" = Some (any_string "") \/
  (exists v, oauth2.raw token !! "orcid" = Some v /\ forall s, v ≠ any_string s) ->
  exists e,
    MissingIdentifierError e /\
    FetchAuthUser token w = (Err e, w) /\
    sent (FetchAuthUser token w).2 = sent w.
Proof.
  intros Hno. exists (errorString missing_iD). split; [ reflexivity | ].
  assert (Hrun : FetchAuthUser token w = (Err (errorString missing_iD), w)).
  { unfold FetchAuthUser, oauth2.Extra.
    destruct Hno as [-> | [-> | (v & -> & Hv)]]; simpl; try reflexivity.
    destruct v; simpl; try reflexivity. by destruct (Hv s). }
  by rewrite Hrun.
Qed.

(** C3, as amended.  On a successful resolution the display name is
    empty exactly when the credit-name, given-names and family-name
    values of the typed projection are all empty: it is not empty as
    soon as one of them is not. *)
Theorem display_name_nonempty token w user w' :
  FetchAuthUser token w = (Ok user, w') ->
  exists data extracted,
    answered token w w' data /\
    json_Unmarshal decode_extracted data Extracted.zero = Ok extracted /\
    let credit := Extracted.Value (Extracted.CreditName (Extracted.Name extracted)) in
    let given := Extracted.Value (Extracted.GivenNames (Extracted.Name extracted)) in
    let family := Extracted.Value (Extracted.FamilyName (Extracted.Name extracted)) in
    (Name user = "" <-> credit = "" /\ given = "" /\ family = "").
Proof.
  intros H. destruct (FetchAuthUser_Ok_fields _ _ _ _ H)
    as (iD & data & rawUser & extracted & _ & _ & Hans & _ & Htyped & HName & _).
  exists data, extracted. split; [ done | split; [ done | ] ].
  simpl in *. rewrite HName.
  destruct (String.eqb (Extracted.Value (Extracted.CreditName _)) "") eqn:Hc.
  - apply String.eqb_eq in Hc.
    destruct (String.eqb (Extracted.Value (Extracted.FamilyName _)) "") eqn:Hf.
    + apply String.eqb_eq in Hf. tauto.
    + apply String.eqb_neq in Hf. split; [ | tauto ].
      intros Hn. by apply append_space_nonempty in Hn.
  - apply String.eqb_neq in Hc. tauto.
Qed.

(** C4.  On a successful resolution the username and the stable
    identifier are both the string held under "orcid" in the token's
    extra fields; they are equal and not empty. *)
Theorem identifier_propagation token w user w' :
  FetchAuthUser token w = (Ok user, w') ->
  exists iD,
    oauth2.raw token !! "orcid" = Some (any_string iD) /\
    Username user = iD /\ Id user = iD /\
    Username user = Id user /\ iD ≠ "".
Proof.
  intros H. destruct (FetchAuthUser_Ok_fields _ _ _ _ H)
    as (iD & data & rawUser & extracted & Hextra & HiD & _ & _ & _ & _ & HU & HI & _).
  exists iD. repeat split; congruence.
Qed.

(** C5.  Email selection: for a profile that was fetched and parsed, the
    call returns an identity whose email is that of the first entry of the
    typed email list, as it is, when the list is not empty; when the list
    is empty the call returns an identity all the same, with the empty
    string as email. *)
Theorem email_selection token w data rawUser extracted :
  answered token w (FetchAuthUser token w).2 data ->
  json_Unmarshal decode_map data ∅ = Ok rawUser ->
  json_Unmarshal decode_extracted data Extracted.zero = Ok extracted ->
  let emails := items (Extracted.Emails_Email (Extracted.Emails extracted)) in
  exists user,
    (FetchAuthUser token w).1 = Ok user /\
    (forall first rest, emails = first :: rest -> Email user = Extracted.Email first) /\
    (emails = [] -> Email user = "").
Proof.
  intros Hans Hraw Htyped emails.
  destruct (FetchAuthUser_answered _ _ _ Hans) as (iD & _ & _ & Hres).
  rewrite Hraw, Htyped in Hres.
  destruct Hres as (user & Hr & _ & _ & HEmail & _).
  exists user. split; [ exact Hr | ]. rewrite HEmail. fold emails.
  split.
  - by intros first rest ->.
  - by intros ->.
Qed.

Lemma profile_request_shape c u :
  Method (profile_request c u) = "GET" /\
  Request_URL (profile_request c u) = u /\
  Header_Get (Header (profile_request c u)) "Accept" = "application/json" /\
  Header_Get (Header (profile_request c u)) "Content-type" = "application/json".
Proof. repeat split; vm_compute; reflexivity. Qed.

Lemma url_Parse_raw raw u : url_Parse raw = Ok u -> rawURL u = raw.
Proof.
  unfold url_Parse. destruct (stringContainsCTLByte _); [ discriminate | ].
  destruct (url_syntax raw); [ discriminate | ]. by intros [= <-].
Qed.

(** C6, as amended.  For a token whose "orcid" extra is a non-empty
    string [s]: when the request can be built (the provider has a
    context and the interpolated string parses as a URL), exactly one
    call is made to the fetch helper, a GET to the string
    "https://pub.orcid.org/v3.0/" + s + "/person" with the headers
    Accept and Content-type set to application/json; when it cannot,
    the error of the construction is returned and no call is made. *)
Theorem request_shape token w s :
  oauth2.raw token !! "orcid" = Some (any_string s) -> s ≠ "" ->
  let target := "https://pub.orcid.org/v3.0/" +:+ s +:+ "/person" in
  match NewRequestWithContext (ctx (base (p w))) "GET" target with
  | Ok _ =>
      exists req,
        sent (FetchAuthUser token w).2 = sent w ++ [(req, token)] /\
        Method req = "GET" /\
        rawURL (Request_URL req) = target /\
        Header_Get (Header req) "Accept" = "application/json" /\
        Header_Get (Header req) "Content-type" = "application/json"
  | Err e =>
      (FetchAuthUser token w).1 = Err e /\
      sent (FetchAuthUser token w).2 = sent w
  end.
Proof.
  intros Hraw Hs target. apply Extra_string in Hraw.
  rewrite FetchAuthUser_world, Hraw, (eqb_empty_false _ Hs). simpl.
  rewrite NewRequest_GET. fold target.
  destruct (ctx (base (p w))) as [c | ] eqn:Hctx.
  - destruct (url_Parse target) as [u | e] eqn:Hurl.
    + exists (profile_request c u). split; [ reflexivity | ].
      destruct (profile_request_shape c u) as (HM & HU & HA & HC).
      rewrite HU. by rewrite (url_Parse_raw _ _ Hurl).
    + split; [ | reflexivity ].
      unfold FetchAuthUser. rewrite Hraw. simpl. rewrite (eqb_empty_false _ Hs).
      unfold mbind, M_bind, write_userInfoURL, read_p, lift; simpl.
      rewrite NewRequest_GET, Hctx. fold target. by rewrite Hurl.
  - split; [ | reflexivity ].
    unfold FetchAuthUser. rewrite Hraw. simpl. rewrite (eqb_empty_false _ Hs).
    unfold mbind, M_bind, write_userInfoURL, read_p, lift; simpl.
    by rewrite NewRequest_GET, Hctx.
Qed.

(** X12.  An identifier with a control byte (before any number sign of
    the interpolated string) never leads to a request, whatever the
    surroundings are. *)
Lemma control_byte_blocks_request token w s :
  oauth2.raw token !! "orcid" = Some (any_string s) -> s ≠ "" ->
  stringContainsCTLByte
    (before_hash ("https://pub.orcid.org/v3.0/" +:+ s +:+ "/person")) = true ->
  sent (FetchAuthUser token w).2 = sent w.
Proof.
  intros Hraw Hs Hctl. apply Extra_string in Hraw.
  rewrite FetchAuthUser_world, Hraw, (eqb_empty_false _ Hs). simpl.
  unfold url_Parse. rewrite Hctl. by destruct (ctx (base (p w))).
Qed.

(** X13.  A call sends one request at most, with the token it was
    given. *)
Lemma at_most_one_request token w :
  sent (FetchAuthUser token w).2 = sent w \/
  exists req, sent (FetchAuthUser token w).2 = sent w ++ [(req, token)].
Proof.
  rewrite FetchAuthUser_world.
  destruct (oauth2.Extra token "orcid") as [ | | | iD | | ]; try (by left).
  destruct (String.eqb iD ""); [ by left | ]. simpl.
  destruct (ctx (base (p w))); [ | by left ].
  destruct (url_Parse _); [ right; eauto | by left ].
Qed.

(** C7.  Dual parse atomicity: the bytes the endpoint answered are
    parsed as a mapping and as the typed projection; when both parses
    succeed the call returns an identity, and when either fails it
    returns a malformed-response error and no identity. *)
Theorem dual_parse_atomicity token w data :
  answered token w (FetchAuthUser token w).2 data ->
  match json_Unmarshal decode_map data ∅,
        json_Unmarshal decode_extracted data Extracted.zero with
  | Ok rawUser, Ok extracted =>
      exists user, (FetchAuthUser token w).1 = Ok user /\ RawUser user = rawUser
  | _, _ =>
      exists e, (FetchAuthUser token w).1 = Err e /\ MalformedResponseError e
  end.
Proof.
  intros Hans.
  destruct (FetchAuthUser_answered _ _ _ Hans) as (iD & _ & _ & Hres).
  destruct (json_Unmarshal decode_map data ∅) as [rawUser | e1] eqn:Hraw.
  - destruct (json_Unmarshal decode_extracted data Extracted.zero)
      as [extracted | e2] eqn:Htyped.
    + destruct Hres as (user & Hr & _ & _ & _ & HRaw & _). eauto.
    + exists e2. split; [ exact Hres | ].
      eapply json_Unmarshal_error; [ apply decode_extracted_error | exact Htyped ].
  - exists e1. split; [ exact Hres | ].
    eapply json_Unmarshal_error; [ | exact Hraw ].
    intros v cur e. apply decode_map_error.
Qed.


(** C10.  Frame property on the provider instance: a call leaves the
    context, display name, PKCE flag, scopes, authorization URL and
    token URL of the instance as they were; when the token carries an
    identifier it writes [userInfoURL], which then holds the derived
    endpoint whatever it held before, and nothing else; when the token
    carries none it leaves the whole instance as it was. *)
Theorem provider_frame token w :
  let o := p w in
  let o' := p (FetchAuthUser token w).2 in
  (ctx (base o') = ctx (base o) /\
   displayName (base o') = displayName (base o) /\
   pkce (base o') = pkce (base o) /\
   scopes (base o') = scopes (base o) /\
   authURL (base o') = authURL (base o) /\
   tokenURL (base o') = tokenURL (base o)) /\
  match oauth2.raw token !! "orcid" with
  | Some (any_string iD) =>
      if String.eqb iD "" then o' = o
      else
        userInfoURL (base o') = "https://pub.orcid.org/v3.0/" +:+ iD +:+ "/person" /\
        o' = set_userInfoURL o ("https://pub.orcid.org/v3.0/" +:+ iD +:+ "/person")
  | _ => o' = o
  end.
Proof.
  simpl. rewrite FetchAuthUser_world. unfold oauth2.Extra.
  destruct (oauth2.raw token !! "orcid") as [ [ | | | iD | | ] | ]; simpl;
    try (by repeat split).
  destruct (String.eqb iD ""); [ by repeat split | ].
  destruct (ctx (base (p w))) eqn:Hctx; [ destruct (url_Parse _) | ];
    simpl; rewrite ?Hctx; by repeat split.
Qed.

End Claims.

(** C9.  Expiry absorption: whatever the date parser does, a call fails or
    succeeds as it does under any other parser, with the same error and
    the same world; on success the identities differ in the expiry at
    most, and the expiry is the zero value when the parse failed. *)
Theorem expiry_absorption (ext : Externals)
    (scan : time_Time -> Result DateTime) token w :
  let r := @FetchAuthUser ext token w in
  let r' := @FetchAuthUser (with_DateTime_Scan ext scan) token w in
  r'.2 = r.2 /\
  match r.1, r'.1 with
  | Ok user, Ok user' =>
      user' =
      set_Expiry user
        match scan (oauth2.Expiry token) with
        | Ok d => d
        | Err _ => DateTime_zero
        end
  | Err e, Err e' => e' = e
  | _, _ => False
  end.
Proof.
  simpl. unfold FetchAuthUser.
  destruct (assert_string _) as [iD ok].
  destruct (negb ok || String.eqb iD ""); [ by split | ].
  unfold mbind, M_bind, write_userInfoURL, read_p, lift, sendRawUserInfoRequest,
    mret, M_ret; simpl.
  change (@NewRequestWithContext (with_DateTime_Scan ext scan))
    with (@NewRequestWithContext ext).
  destruct (NewRequestWithContext _ _ _) as [req | e]; [ | by split ].
  destruct (transport _ _ _ _) as [data | e]; [ | by split ].
  change (@json_Unmarshal (with_DateTime_Scan ext scan))
    with (@json_Unmarshal ext).
  change (@decode_map (with_DateTime_Scan ext scan)) with (@decode_map ext).
  change (@decode_extracted (with_DateTime_Scan ext scan)) with (@decode_extracted ext).
  destruct (json_Unmarshal decode_map _ _) as [rawUser | e]; [ | by split ].
  destruct (json_Unmarshal decode_extracted _ _) as [extracted | e]; [ | by split ].
  simpl. split; [ reflexivity | ].
  unfold ParseDateTime; simpl. by destruct (scan (oauth2.Expiry token)).
Qed.

(** * Further properties of the provider *)

Section Further.

Context {ext : Externals}.

(** What a logged request says of a call: the token carries an identifier,
    the request is the one built for it, and the endpoint was written. *)
Lemma sent_inv token w req :
  sent (FetchAuthUser token w).2 = sent w ++ [(req, token)] ->
  exists iD c u,
    oauth2.Extra token "orcid" = any_string iD /\ iD ≠ "" /\
    ctx (base (p w)) = Some c /\
    url_Parse ("https://pub.orcid.org/v3.0/" +:+ iD +:+ "/person") = Ok u /\
    req = profile_request c u /\
    p (FetchAuthUser token w).2 =
      set_userInfoURL (p w) ("https://pub.orcid.org/v3.0/" +:+ iD +:+ "/person").
Proof.
  rewrite FetchAuthUser_world.
  destruct (oauth2.Extra token "orcid") as [ | | | iD | | ];
    try (intros Hsent; by apply not_app_singleton in Hsent).
  destruct (String.eqb iD "") eqn:HiD;
    [ intros Hsent; by apply not_app_singleton in Hsent | ].
  apply String.eqb_neq in HiD. simpl.
  destruct (ctx (base (p w))) as [c | ] eqn:Hctx;
    [ | intros Hsent; by apply not_app_singleton in Hsent ].
  destruct (url_Parse _) as [u | ] eqn:Hurl;
    [ | intros Hsent; by apply not_app_singleton in Hsent ].
  simpl. intros Hsent. apply app_inv_head in Hsent. injection Hsent as <-.
  exists iD, c, u. repeat split; try done; try (by rewrite <- Hctx).
Qed.

(** The result of a call whose request was built, by what the fetch helper
    gave for it. *)
Lemma FetchAuthUser_transport token w iD c u :
  oauth2.Extra token "orcid" = any_string iD -> iD ≠ "" ->
  ctx (base (p w)) = Some c ->
  url_Parse ("https://pub.orcid.org/v3.0/" +:+ iD +:+ "/person") = Ok u ->
  forall e,
    transport
      (base (set_userInfoURL (p w) ("https://pub.orcid.org/v3.0/" +:+ iD +:+ "/person")))
      (sent w) (profile_request c u) token = Err e ->
    (FetchAuthUser token w).1 = Err e.
Proof.
  intros Hextra HiD Hctx Hurl e Hdata.
  destruct (FetchAuthUser token w) as [r w'] eqn:Hrun. simpl.
  unfold FetchAuthUser in Hrun. rewrite Hextra in Hrun. simpl in Hrun.
  rewrite (eqb_empty_false _ HiD) in Hrun.
  unfold mbind, M_bind, write_userInfoURL, read_p, lift, sendRawUserInfoRequest,
    mret, M_ret in Hrun; simpl in Hrun.
  rewrite NewRequest_GET, Hctx, Hurl in Hrun.
  unfold profile_request in Hdata. simpl in Hdata. rewrite Hctx in Hdata.
  rewrite Hdata in Hrun. by injection Hrun as <- _.
Qed.

(** X1.  On a successful resolution the access token and the refresh token
    of the identity are those of the token, as they are. *)
Theorem token_material_verbatim token w user w' :
  FetchAuthUser token w = (Ok user, w') ->
  AccessToken user = oauth2.AccessToken token /\
  RefreshToken user = oauth2.RefreshToken token.
Proof.
  intros H. destruct (FetchAuthUser_Ok _ _ _ _ H)
    as (Hw' & data & rawUser & extracted & Hans & Hraw & Htyped).
  assert (Hr : (FetchAuthUser token w).1 = Ok user) by (by rewrite H).
  rewrite Hw' in Hans.
  destruct (FetchAuthUser_answered _ _ _ Hans) as (iD & _ & _ & Hres).
  rewrite Hraw, Htyped in Hres.
  destruct Hres as (user' & Hr' & _ & _ & _ & _ & HA & HR & _).
  rewrite Hr in Hr'. injection Hr' as <-. by split.
Qed.

(** X2.  On a successful resolution exactly one request was sent, and it
    went to the endpoint of the identifier the identity reports; the
    provider instance holds that endpoint. *)
Theorem identity_matches_request token w user w' :
  FetchAuthUser token w = (Ok user, w') ->
  exists req,
    sent w' = sent w ++ [(req, token)] /\
    rawURL (Request_URL req) = "https://pub.orcid.org/v3.0/" +:+ Id user +:+ "/person" /\
    userInfoURL (base (p w')) = "https://pub.orcid.org/v3.0/" +:+ Id user +:+ "/person".
Proof.
  intros H. destruct (FetchAuthUser_Ok _ _ _ _ H)
    as (Hw' & data & rawUser & extracted & Hans & Hraw & Htyped).
  assert (Hr : (FetchAuthUser token w).1 = Ok user) by (by rewrite H).
  rewrite Hw' in Hans.
  destruct (FetchAuthUser_answered _ _ _ Hans) as (iD & HiDraw & _ & Hres).
  rewrite Hraw, Htyped in Hres.
  destruct Hres as (user' & Hr' & _ & _ & _ & _ & _ & _ & HId & _).
  rewrite Hr in Hr'. injection Hr' as <-.
  destruct Hans as (req & Hsent & _).
  destruct (sent_inv _ _ _ Hsent) as (iD' & c & u & Hextra & _ & _ & Hurl & -> & Hp).
  apply Extra_string in Hextra. rewrite HiDraw in Hextra. injection Hextra as <-.
  exists (profile_request c u). rewrite Hw', HId. repeat split.
  - exact Hsent.
  - destruct (profile_request_shape c u) as (_ & -> & _). by apply url_Parse_raw.
  - by rewrite Hp.
Qed.

(** X3.  An error of the fetch helper is returned as it is. *)
Theorem transport_error_propagates token w req e :
  sent (FetchAuthUser token w).2 = sent w ++ [(req, token)] ->
  transport (base (p (FetchAuthUser token w).2)) (sent w) req token = Err e ->
  (FetchAuthUser token w).1 = Err e.
Proof.
  intros Hsent Hdata.
  destruct (sent_inv _ _ _ Hsent) as (iD & c & u & Hextra & HiD & Hctx & Hurl & -> & Hp).
  rewrite Hp in Hdata. by eapply FetchAuthUser_transport.
Qed.

(** X4.  Every failure of a call is of one of four kinds: the token has no
    identifier, and nothing was written or sent; the request could not be
    built, and nothing was sent; the fetch helper failed on the one
    request; or the answer to the one request did not parse. *)
Theorem failure_taxonomy token w e :
  (FetchAuthUser token w).1 = Err e ->
  (MissingIdentifierError e /\ (FetchAuthUser token w).2 = w) \/
  (exists iD,
     oauth2.raw token !! "orcid" = Some (any_string iD) /\
     NewRequestWithContext (ctx (base (p w))) "GET"
       ("https://pub.orcid.org/v3.0/" +:+ iD +:+ "/person") = Err e /\
     sent (FetchAuthUser token w).2 = sent w) \/
  (exists req,
     sent (FetchAuthUser token w).2 = sent w ++ [(req, token)] /\
     transport (base (p (FetchAuthUser token w).2)) (sent w) req token = Err e) \/
  (exists data,
     answered token w (FetchAuthUser token w).2 data /\ MalformedResponseError e).
Proof.
  destruct (FetchAuthUser token w) as [r w'] eqn:Hrun. simpl. intros ->.
  unfold FetchAuthUser in Hrun.
  destruct (assert_string _) as [iD ok] eqn:Has.
  destruct (negb ok || String.eqb iD "") eqn:Hguard.
  { injection Hrun as <- <-. left. by split. }
  destruct (guard_passed _ _ _ Has Hguard) as [Hextra HiD].
  unfold mbind, M_bind, write_userInfoURL, read_p, lift, sendRawUserInfoRequest,
    mret, M_ret in Hrun.
  simpl in Hrun.
  destruct (NewRequestWithContext _ _ _) as [req0 | e0] eqn:Hreq.
  2: { injection Hrun as <- <-. right. left. exists iD.
       split; [ by apply Extra_string | by split ]. }
  destruct (transport _ _ _ _) as [data | e1] eqn:Hdata.
  2: { injection Hrun as <- <-. right. right. left. eexists. split; [ reflexivity | ].
       exact Hdata. }
  right. right. right. exists data.
  destruct (json_Unmarshal decode_map data ∅) as [rawUser | e2] eqn:Hraw.
  - destruct (json_Unmarshal decode_extracted data Extracted.zero)
      as [extracted | e3] eqn:Htyped; [ discriminate Hrun | ].
    injection Hrun as <- <-. split.
    + eexists. split; [ reflexivity | exact Hdata ].
    + eapply json_Unmarshal_error; [ apply decode_extracted_error | exact Htyped ].
  - injection Hrun as <- <-. split.
    + eexists. split; [ reflexivity | exact Hdata ].
    + eapply json_Unmarshal_error; [ | exact Hraw ].
      intros v cur err. apply decode_map_error.
Qed.

(** X5.  The endpoint URL an earlier call left in the provider instance is
    never read: with any other string in its place the call returns the
    same result and sends the same request, and it leaves the same
    instance unless the token has no identifier, in which case it leaves
    each world as it found it. *)
Theorem stale_url_never_read token w stale :
  let w0 := {| p := set_userInfoURL (p w) stale; sent := sent w |} in
  (FetchAuthUser token w0).1 = (FetchAuthUser token w).1 /\
  sent (FetchAuthUser token w0).2 = sent (FetchAuthUser token w).2 /\
  (p (FetchAuthUser token w0).2 = p (FetchAuthUser token w).2 \/
   (FetchAuthUser token w0).2 = w0 /\ (FetchAuthUser token w).2 = w).
Proof.
  simpl. unfold FetchAuthUser.
  destruct (assert_string _) as [iD ok].
  destruct (negb ok || String.eqb iD ""); [ simpl; by repeat split; right | ].
  unfold mbind, M_bind, write_userInfoURL, read_p, lift, sendRawUserInfoRequest,
    mret, M_ret; simpl.
  destruct (NewRequestWithContext _ _ _) as [req | e]; [ | by repeat split; left ].
  destruct (transport _ _ _ _) as [data | e]; [ | by repeat split; left ].
  destruct (json_Unmarshal decode_map _ _) as [rawUser | e]; [ | by repeat split; left ].
  destruct (json_Unmarshal decode_extracted _ _) as [extracted | e];
    by repeat split; left.
Qed.

(** X6.  The request handed to the fetch helper carries the context of the
    provider instance, and its header holds the two fields Accept and
    Content-Type, each with the one value application/json, and nothing
    else. *)
Theorem request_details token w req :
  sent (FetchAuthUser token w).2 = sent w ++ [(req, token)] ->
  ctx (base (p w)) = Some (Request_ctx req) /\
  Header req = {[ "Accept" := ["application/json"];
                  "Content-Type" := ["application/json"] ]}.
Proof.
  intros Hsent.
  destruct (sent_inv _ _ _ Hsent) as (iD & c & u & _ & _ & Hctx & _ & -> & _).
  split; [ exact Hctx | ]. vm_compute. reflexivity.
Qed.

Lemma member_value_absent k members :
  k ∉ members.*1 -> member_value k members = None.
Proof.
  intros Hno. destruct (member_value k members) as [x | ] eqn:Hx; [ | done ].
  exfalso. apply Hno. apply member_value_Some in Hx.
  apply list_elem_of_fmap. by exists (k, x).
Qed.

(** X7.  When the answered body is a JSON object, the raw mapping of the
    identity holds no key besides the top-level keys of the object. *)
Theorem raw_user_no_other_keys token w user w' :
  FetchAuthUser token w = (Ok user, w') ->
  exists data,
    answered token w w' data /\
    forall members, json_scan data = inr (JObject members) ->
    forall k, k ∉ members.*1 -> RawUser user !! k = None.
Proof.
  intros H. destruct (FetchAuthUser_Ok_fields _ _ _ _ H)
    as (iD & data & rawUser & extracted & _ & _ & Hans & Hraw & _ & _ & _ & _ & HRaw).
  exists data. split; [ done | ].
  intros members Hscan k Hno. rewrite HRaw.
  unfold json_Unmarshal in Hraw. rewrite Hscan in Hraw. simpl in Hraw.
  by rewrite (foldM_store_member _ _ _ Hraw k), (member_value_absent _ _ Hno).
Qed.

(** X8.  A body that is the JSON value null is no error: the call returns
    an identity with an empty name, an empty email and an empty raw
    mapping. *)
Theorem null_body_resolves token w data :
  answered token w (FetchAuthUser token w).2 data ->
  json_scan data = inr JNull ->
  exists user,
    (FetchAuthUser token w).1 = Ok user /\
    Name user = "" /\ Email user = "" /\ RawUser user = ∅.
Proof.
  intros Hans Hscan.
  destruct (FetchAuthUser_answered _ _ _ Hans) as (iD & _ & _ & Hres).
  unfold json_Unmarshal in Hres. rewrite Hscan in Hres. simpl in Hres.
  destruct Hres as (user & Hr & HName & _ & HEmail & HRaw & _).
  exists user. by repeat split.
Qed.


(** The typed projection of an object none of whose keys selects a field
    is the zero value. *)
Lemma decode_struct_unknown {T} (fields : list (string * (json -> T -> Result T)))
    members cur :
  Forall (fun kv => find_field fields kv.1 = None) members ->
  decode_struct fields (JObject members) cur = Ok cur.
Proof.
  simpl. induction 1 as [ | kv r Hkv _ IH ]; [ reflexivity | ].
  rewrite foldM_cons, Hkv. exact IH.
Qed.

(** X10.  A profile object without members for the name and the emails
    (no key that is, or folds to the same as, "name" or "emails"), but
    whose members all store, resolves all the same, to an identity with an
    empty name and an empty email. *)
Theorem profile_without_known_members token w data members rawUser :
  answered token w (FetchAuthUser token w).2 data ->
  json_scan data = inr (JObject members) ->
  json_Unmarshal decode_map data ∅ = Ok rawUser ->
  (forall k, k ∈ members.*1 ->
     k ≠ "name" /\ k ≠ "emails" /\
     foldName k ≠ foldName "name" /\ foldName k ≠ foldName "emails") ->
  exists user,
    (FetchAuthUser token w).1 = Ok user /\
    Name user = "" /\ Email user = "" /\ RawUser user = rawUser.
Proof.
  intros Hans Hscan Hraw Hkeys.
  assert (Htyped : json_Unmarshal decode_extracted data Extracted.zero =
                   Ok Extracted.zero).
  { unfold json_Unmarshal. rewrite Hscan. apply decode_struct_unknown.
    apply Forall_forall. intros [k x] Hin.
    destruct (Hkeys k) as (Hn & He & Hfn & Hfe).
    { apply list_elem_of_fmap. by exists (k, x). }
    unfold find_field, find. cbn [fst snd].
    rewrite (proj2 (String.eqb_neq "name" k)) by congruence.
    rewrite (proj2 (String.eqb_neq "emails" k)) by congruence.
    rewrite (proj2 (String.eqb_neq (foldName "name") (foldName k))) by congruence.
    by rewrite (proj2 (String.eqb_neq (foldName "emails") (foldName k))) by congruence. }
  destruct (FetchAuthUser_answered _ _ _ Hans) as (iD & _ & _ & Hres).
  rewrite Hraw, Htyped in Hres. simpl in Hres.
  destruct Hres as (user & Hr & HName & _ & HEmail & HRaw & _).
  exists user. by repeat split.
Qed.

(** One call keeps the configuration and extends the log by one request at
    most. *)
Lemma one_call_kept token w :
  let w' := (FetchAuthUser token w).2 in
  (ctx (base (p w')) = ctx (base (p w)) /\
   displayName (base (p w')) = displayName (base (p w)) /\
   pkce (base (p w')) = pkce (base (p w)) /\
   scopes (base (p w')) = scopes (base (p w)) /\
   authURL (base (p w')) = authURL (base (p w)) /\
   tokenURL (base (p w')) = tokenURL (base (p w))) /\
  exists more, sent w' = sent w ++ more /\ length more <= 1.
Proof.
  assert (Hnone : exists more : list Exchange,
             sent w = sent w ++ more /\ length more <= 1).
  { exists []. rewrite app_nil_r. split; [ reflexivity | simpl; lia ]. }
  simpl. rewrite FetchAuthUser_world.
  destruct (oauth2.Extra token "orcid") as [ | | | iD | | ];
    try (split; [ by repeat split | exact Hnone ]).
  destruct (String.eqb iD ""); [ split; [ by repeat split | exact Hnone ] | ].
  simpl. destruct (ctx (base (p w))) eqn:Hctx; [ destruct (url_Parse _) | ]; simpl;
    rewrite ?Hctx; (split; [ by repeat split | ]); try exact Hnone.
  eexists. split; [ reflexivity | simpl; lia ].
Qed.

(** X11.  Across any sequence of calls on one provider instance the
    context, display name, PKCE flag, scopes, authorization URL and token
    URL stay as they were, the requests sent before stay in the log in
    their order, and no more requests are added than calls were made. *)
Theorem configuration_kept tokens w :
  let w' := after_calls tokens w in
  (ctx (base (p w')) = ctx (base (p w)) /\
   displayName (base (p w')) = displayName (base (p w)) /\
   pkce (base (p w')) = pkce (base (p w)) /\
   scopes (base (p w')) = scopes (base (p w)) /\
   authURL (base (p w')) = authURL (base (p w)) /\
   tokenURL (base (p w')) = tokenURL (base (p w))) /\
  exists more, sent w' = sent w ++ more /\ length more <= length tokens.
Proof.
  simpl. revert w. induction tokens as [ | token rest IH ]; intros w.
  - split; [ by repeat split | ].
    exists []. rewrite app_nil_r. split; [ reflexivity | simpl; lia ].
  - unfold after_calls. simpl. fold (after_calls rest (FetchAuthUser token w).2).
    destruct (IH (FetchAuthUser token w).2)
      as ((H1 & H2 & H3 & H4 & H5 & H6) & more & Hmore & Hlen).
    destruct (one_call_kept token w)
      as ((K1 & K2 & K3 & K4 & K5 & K6) & one & Hone & Hlen1).
    split; [ repeat split; congruence | ].
    exists (one ++ more). rewrite Hmore, Hone, <- app_assoc.
    split; [ reflexivity | ]. rewrite length_app. simpl. lia.
Qed.

End Further.

(** * The claims on the sample world *)

#[local] Existing Instance Sample.ext.

(** The scenario of the specification: the token with the identifier
    0000-0001-2345-6789 resolves to Ada Lovelace, with one request sent. *)
Lemma scenario_ada :
  FetchAuthUser Sample.ada_token Sample.start = (Ok Sample.ada_identity, Sample.ada_world).
Proof. vm_compute. reflexivity. Qed.

(** A credit name wins over given and family names, the first of two
    addresses is taken, and members outside the typed projection are in
    the raw profile. *)
Lemma scenario_grace :
  let user := identity_of (FetchAuthUser Sample.grace_token Sample.start) in
  Name <$> user = Some "G. M. Hopper" /\
  Email <$> user = Some "a@x.com" /\
  (fun u => RawUser u !! "path") <$> user =
    Some (Some (any_string "/0000-0002-1825-0097/person")) /\
  (fun u => RawUser u !! "last-modified-date") <$> user =
    Some (Some (any_map {[ "value" :=
                  any_float64 (S754_finite false 5983288231550976 (-12)) ]})).
Proof. repeat split; vm_compute; reflexivity. Qed.

(** A body that is not JSON, and a JSON object of another shape, both end
    in a malformed-response error after the one request. *)
Lemma scenario_malformed :
  (FetchAuthUser (Sample.token (any_string "0000-0001-5109-3700")) Sample.start).1 =
    Err (json_SyntaxError "invalid character looking for beginning of value") /\
  (FetchAuthUser Sample.misshapen_token Sample.start).1 =
    Err (json_UnmarshalTypeError "string") /\
  length (sent (FetchAuthUser Sample.misshapen_token Sample.start).2) = 1.
Proof. repeat split; vm_compute; reflexivity. Qed.

(** The scenario's call was answered with the scenario's profile, which
    parses twice. *)
Lemma scenario_ada_answered :
  answered Sample.ada_token Sample.start
    (FetchAuthUser Sample.ada_token Sample.start).2 (Sample.render Sample.ada) /\
  json_Unmarshal decode_map (Sample.render Sample.ada) ∅ =
    Ok (RawUser Sample.ada_identity) /\
  json_Unmarshal decode_extracted (Sample.render Sample.ada) Extracted.zero =
    Ok Sample.ada_extracted.
Proof.
  split; [ | split; vm_compute; reflexivity ].
  exists (Sample.request_for "0000-0001-2345-6789").
  split; vm_compute; reflexivity.
Qed.

(** C1 on the scenario: an empty credit name, so given and family names. *)
Lemma name_normalization_witness :
  exists user,
    (FetchAuthUser Sample.ada_token Sample.start).1 = Ok user /\
    ("" ≠ "" -> Name user = "") /\
    ("" = "" -> "Lovelace" ≠ "" -> Name user = "Ada" +:+ " " +:+ "Lovelace") /\
    ("" = "" -> "Lovelace" = "" -> Name user = "Ada").
Proof.
  apply (name_normalization Sample.ada_token Sample.start
           (Sample.render Sample.ada) (RawUser Sample.ada_identity)
           Sample.ada_extracted).
  - exists (Sample.request_for "0000-0001-2345-6789").
    split; vm_compute; reflexivity.
  - vm_compute. reflexivity.
  - vm_compute. reflexivity.
Defined.

(** C2 on a token whose "orcid" extra is a number. *)
Lemma missing_identifier_witness :
  exists e,
    MissingIdentifierError e /\
    FetchAuthUser Sample.numeric_token Sample.start = (Err e, Sample.start) /\
    sent (FetchAuthUser Sample.numeric_token Sample.start).2 = sent Sample.start.
Proof.
  apply (missing_identifier Sample.numeric_token Sample.start).
  right. right. exists (any_float64 (S754_zero false)).
  split; [ vm_compute; reflexivity | discriminate ].
Defined.

(** The three ways of lacking the identifier: no "orcid" member, the empty
    string, a value that is not a string. *)
Lemma scenario_no_identifier :
  FetchAuthUser Sample.bare_token Sample.start =
    (Err (errorString missing_iD), Sample.start) /\
  FetchAuthUser Sample.empty_token Sample.start =
    (Err (errorString missing_iD), Sample.start) /\
  FetchAuthUser Sample.numeric_token Sample.start =
    (Err (errorString missing_iD), Sample.start).
Proof. repeat split; vm_compute; reflexivity. Qed.

(** C3 as stated fails: the profile that shows no name resolves, and the
    display name of the identity is empty. *)
Lemma display_name_empty_on_success :
  Name <$> identity_of (FetchAuthUser Sample.hidden_token Sample.start) = Some "".
Proof. vm_compute. reflexivity. Qed.

(** C3, as amended, on the scenario. *)
Lemma display_name_nonempty_witness :
  exists data extracted,
    answered Sample.ada_token Sample.start Sample.ada_world data /\
    json_Unmarshal decode_extracted data Extracted.zero = Ok extracted /\
    let credit := Extracted.Value (Extracted.CreditName (Extracted.Name extracted)) in
    let given := Extracted.Value (Extracted.GivenNames (Extracted.Name extracted)) in
    let family := Extracted.Value (Extracted.FamilyName (Extracted.Name extracted)) in
    (Name Sample.ada_identity = "" <-> credit = "" /\ given = "" /\ family = "").
Proof.
  apply (display_name_nonempty Sample.ada_token Sample.start Sample.ada_identity Sample.ada_world).
  vm_compute. reflexivity.
Defined.

(** C4 on the scenario. *)
Lemma identifier_propagation_witness :
  exists iD,
    oauth2.raw Sample.ada_token !! "orcid" = Some (any_string iD) /\
    Username Sample.ada_identity = iD /\ Id Sample.ada_identity = iD /\
    Username Sample.ada_identity = Id Sample.ada_identity /\ iD ≠ "".
Proof.
  apply (identifier_propagation Sample.ada_token Sample.start Sample.ada_identity Sample.ada_world).
  vm_compute. reflexivity.
Defined.

(** C5 on the scenario: one address, which is taken. *)
Lemma email_selection_witness :
  exists user,
    (FetchAuthUser Sample.ada_token Sample.start).1 = Ok user /\
    (forall first rest,
       [{| Extracted.Email := "ada@example.org" |}] = first :: rest ->
       Email user = Extracted.Email first) /\
    ([{| Extracted.Email := "ada@example.org" |}] = [] -> Email user = "").
Proof.
  apply (email_selection Sample.ada_token Sample.start
           (Sample.render Sample.ada) (RawUser Sample.ada_identity)
           Sample.ada_extracted).
  - exists (Sample.request_for "0000-0001-2345-6789").
    split; vm_compute; reflexivity.
  - vm_compute. reflexivity.
  - vm_compute. reflexivity.
Defined.

(** An empty email list is no error: the profile without addresses
    resolves, with the empty string as email. *)
Lemma email_empty_list :
  Email <$> identity_of (FetchAuthUser Sample.hidden_token Sample.start) = Some "".
Proof. vm_compute. reflexivity. Qed.

(** C6 as stated fails: for an identifier that ends in a line feed, which
    is a non-empty string, the request cannot be built and none is
    sent. *)
Lemma no_request_for_control_byte :
  oauth2.raw Sample.broken_token !! "orcid" = Some (any_string Sample.broken_iD) /\
  String.eqb Sample.broken_iD "" = false /\
  (FetchAuthUser Sample.broken_token Sample.start).1 =
    Err (url_Error "parse" (Sample.endpoint Sample.broken_iD)
           "net/url: invalid control character in URL") /\
  sent (FetchAuthUser Sample.broken_token Sample.start).2 = [].
Proof. repeat split; vm_compute; reflexivity. Qed.

(** C6, as amended, on the scenario. *)
Lemma request_shape_witness :
  exists req,
    sent (FetchAuthUser Sample.ada_token Sample.start).2 =
      sent Sample.start ++ [(req, Sample.ada_token)] /\
    Method req = "GET" /\
    rawURL (Request_URL req) = "https://pub.orcid.org/v3.0/0000-0001-2345-6789/person" /\
    Header_Get (Header req) "Accept" = "application/json" /\
    Header_Get (Header req) "Content-type" = "application/json".
Proof.
  assert (Hraw : oauth2.raw Sample.ada_token !! "orcid" =
                 Some (any_string "0000-0001-2345-6789")) by (vm_compute; reflexivity).
  assert (Hs : "0000-0001-2345-6789" ≠ "") by discriminate.
  exact (request_shape Sample.ada_token Sample.start "0000-0001-2345-6789" Hraw Hs).
Defined.

(** C7 on the JSON object of another shape: the mapping parses, the typed
    projection does not, and the call fails. *)
Lemma dual_parse_atomicity_witness :
  exists e,
    (FetchAuthUser Sample.misshapen_token Sample.start).1 = Err e /\
    MalformedResponseError e.
Proof.
  assert (Hans : answered Sample.misshapen_token Sample.start
                   (FetchAuthUser Sample.misshapen_token Sample.start).2
                   (Sample.render Sample.misshapen)).
  { exists (Sample.request_for "0000-0002-9079-593X").
    split; vm_compute; reflexivity. }
  exact (dual_parse_atomicity Sample.misshapen_token Sample.start
           (Sample.render Sample.misshapen) Hans).
Defined.


(** With a date parser that fails the scenario still resolves, to the same
    identity but for the zero expiry. *)
Lemma scenario_without_expiry :
  @FetchAuthUser Sample.ext_no_date Sample.ada_token Sample.start =
  (Ok (set_Expiry Sample.ada_identity DateTime_zero), Sample.ada_world).
Proof. vm_compute. reflexivity. Qed.

(** * The further properties on the sample world *)

(** X1 on the scenario. *)
Lemma token_material_verbatim_witness :
  AccessToken Sample.ada_identity = oauth2.AccessToken Sample.ada_token /\
  RefreshToken Sample.ada_identity = oauth2.RefreshToken Sample.ada_token.
Proof.
  apply (token_material_verbatim Sample.ada_token Sample.start
           Sample.ada_identity Sample.ada_world).
  vm_compute. reflexivity.
Defined.

(** X2 on the scenario. *)
Lemma identity_matches_request_witness :
  exists req,
    sent Sample.ada_world = sent Sample.start ++ [(req, Sample.ada_token)] /\
    rawURL (Request_URL req) =
      "https://pub.orcid.org/v3.0/" +:+ Id Sample.ada_identity +:+ "/person" /\
    userInfoURL (base (p Sample.ada_world)) =
      "https://pub.orcid.org/v3.0/" +:+ Id Sample.ada_identity +:+ "/person".
Proof.
  apply (identity_matches_request Sample.ada_token Sample.start
           Sample.ada_identity Sample.ada_world).
  vm_compute. reflexivity.
Defined.

(** X3 on an identifier the sample endpoint does not know. *)
Lemma transport_error_propagates_witness :
  (FetchAuthUser (Sample.token (any_string "0000-0000-0000-0000")) Sample.start).1 =
  Err (transportError "404 Not Found").
Proof.
  apply (transport_error_propagates (Sample.token (any_string "0000-0000-0000-0000"))
           Sample.start (Sample.request_for "0000-0000-0000-0000")).
  - vm_compute. reflexivity.
  - vm_compute. reflexivity.
Defined.

(** X4 on the profile of another shape: a failure of the fourth kind, as
    the taxonomy allows. *)
Lemma failure_taxonomy_witness :
  let token := Sample.misshapen_token in
  let w := Sample.start in
  let e := json_UnmarshalTypeError "string" in
  (MissingIdentifierError e /\ (FetchAuthUser token w).2 = w) \/
  (exists iD,
     oauth2.raw token !! "orcid" = Some (any_string iD) /\
     NewRequestWithContext (ctx (base (p w))) "GET"
       ("https://pub.orcid.org/v3.0/" +:+ iD +:+ "/person") = Err e /\
     sent (FetchAuthUser token w).2 = sent w) \/
  (exists req,
     sent (FetchAuthUser token w).2 = sent w ++ [(req, token)] /\
     transport (base (p (FetchAuthUser token w).2)) (sent w) req token = Err e) \/
  (exists data,
     answered token w (FetchAuthUser token w).2 data /\ MalformedResponseError e).
Proof.
  apply (failure_taxonomy Sample.misshapen_token Sample.start
           (json_UnmarshalTypeError "string")).
  vm_compute. reflexivity.
Defined.

(** X6 on the scenario. *)
Lemma request_details_witness :
  ctx (base (p Sample.start)) =
    Some (Request_ctx (Sample.request_for "0000-0001-2345-6789")) /\
  Header (Sample.request_for "0000-0001-2345-6789") =
    {[ "Accept" := ["application/json"]; "Content-Type" := ["application/json"] ]}.
Proof.
  apply (request_details Sample.ada_token Sample.start
           (Sample.request_for "0000-0001-2345-6789")).
  vm_compute. reflexivity.
Defined.

(** X7 on the scenario. *)
Lemma raw_user_no_other_keys_witness :
  exists data,
    answered Sample.ada_token Sample.start Sample.ada_world data /\
    forall members, json_scan data = inr (JObject members) ->
    forall k, k ∉ members.*1 -> RawUser Sample.ada_identity !! k = None.
Proof.
  apply (raw_user_no_other_keys Sample.ada_token Sample.start
           Sample.ada_identity Sample.ada_world).
  vm_compute. reflexivity.
Defined.

(** X8 on an endpoint that answers null. *)
Lemma null_body_resolves_witness :
  exists user,
    (@FetchAuthUser (one_body "null" (inr JNull)) Sample.ada_token Sample.start).1 =
      Ok user /\
    Name user = "" /\ Email user = "" /\ RawUser user = ∅.
Proof.
  apply (@null_body_resolves (one_body "null" (inr JNull))
           Sample.ada_token Sample.start "null").
  - exists (Sample.request_for "0000-0001-2345-6789").
    split; vm_compute; reflexivity.
  - vm_compute. reflexivity.
Defined.


(** X10 on an endpoint that answers the profile with a path only. *)
Lemma profile_without_known_members_witness :
  exists user,
    (@FetchAuthUser (one_body (Sample.render path_only) (inr path_only))
       Sample.ada_token Sample.start).1 = Ok user /\
    Name user = "" /\ Email user = "" /\
    RawUser user = {[ "path" := any_string "/0000-0001-2345-6789/person" ]}.
Proof.
  apply (@profile_without_known_members
           (one_body (Sample.render path_only) (inr path_only))
           Sample.ada_token Sample.start (Sample.render path_only)
           [("path", JString "/0000-0001-2345-6789/person")]).
  - exists (Sample.request_for "0000-0001-2345-6789").
    split; vm_compute; reflexivity.
  - vm_compute. reflexivity.
  - vm_compute. reflexivity.
  - intros k Hk. apply list_elem_of_singleton in Hk. subst k.
    repeat split; vm_compute; discriminate.
Defined.

(** X12 on the identifier that ends in a line feed. *)
Lemma control_byte_blocks_request_witness :
  sent (FetchAuthUser Sample.broken_token Sample.start).2 = sent Sample.start.
Proof.
  apply (control_byte_blocks_request Sample.broken_token Sample.start Sample.broken_iD).
  - vm_compute. reflexivity.
  - discriminate.
  - vm_compute. reflexivity.
Defined.
